(** * E-commerce dashboard (dashboard.py): filter, KPIs and aggregates

    A shallow embedding of the computational part of [dashboard.py].  A
    DataFrame is a list of rows; a cell that pandas may hold as NaN/NaT is an
    [option].  A float64 value is a rational, NaN or an infinity ([fl]).
    Sums of a column and the quotient of two counts are kept exact: the
    model leaves out the rounding of a running float64 sum and the
    wrap-around of an int64 sum.  The mean, the sum and difference of two
    floats and the text of a formatted float are rounded to binary64 as the
    program rounds them.  Widgets and figures appear as events of the script
    run; of the plotting library the model keeps that an axis limit which is
    not a finite number is refused. *)

From Stdlib Require Import ZArith QArith Qabs Qround String Ascii Bool Lia List.
From Stdlib Require Import Permutation Sorted DecimalString.
Import ListNotations.

Local Open Scope Z_scope.

(** ** Frame: the pandas operations the script uses *)

Module Frame.

(** A float64 value: a finite number, NaN, or an infinity. *)
Inductive fl : Type :=
| Fin (q : Q)
| PInf
| NInf
| NaN.

Definition fl_of_nat (n : nat) : fl := Fin (inject_Z (Z.of_nat n)).

(** Rounding to the nearest integer, ties to the even one. *)
Definition round_half_even (q : Q) : Z :=
  let f := Qfloor q in
  match Qcompare (q - inject_Z f) (1 # 2) with
  | Lt => f
  | Gt => f + 1
  | Eq => if Z.even f then f else f + 1
  end.

Definition pow2 (k : Z) : Q :=
  if 0 <=? k then inject_Z (2 ^ k) else 1 # Z.to_pos (2 ^ (- k)).

(** The exponent of the unit in the last place of the binary64 numbers near
    [a > 0]: 52 below the exponent of [a], and -1074 at least. *)
Definition ulp_exponent (a : Q) : Z :=
  let e := Z.log2 (Qnum a) - Z.log2 (Zpos (Qden a)) in
  let e := if Qle_bool (pow2 e) a then e else e - 1 in
  Z.max (e - 52) (-1074).

(** The binary64 number nearest to [q], ties to even: the result of a
    float64 operation whose exact result is [q]. *)
Definition b64 (q : Q) : fl :=
  if Qeq_bool q 0 then Fin 0
  else
    let a := Qabs q in
    let k := ulp_exponent a in
    let r := Qred (inject_Z (round_half_even (a / pow2 k)) * pow2 k) in
    let negative := negb (Qle_bool 0 q) in
    if Qle_bool (pow2 1024) r
    then (if negative then NInf else PInf)
    else Fin (if negative then - r else r).

(** A nullable numeric cell read as a float: null is NaN. *)
Definition fl_of_cell (c : option nat) : fl :=
  match c with
  | Some n => fl_of_nat n
  | None => NaN
  end.

Definition Qsign_neg (q : Q) : bool := negb (Qle_bool 0 q).

Definition fl_neg (a : fl) : fl :=
  match a with
  | Fin x => Fin (- x)
  | PInf => NInf
  | NInf => PInf
  | NaN => NaN
  end.

(** Float64 addition: the exact sum of the two numbers, rounded. *)
Definition fl_add (a b : fl) : fl :=
  match a, b with
  | NaN, _ | _, NaN => NaN
  | Fin x, Fin y => b64 (x + y)
  | PInf, NInf | NInf, PInf => NaN
  | PInf, _ | _, PInf => PInf
  | NInf, _ | _, NInf => NInf
  end.

Definition fl_sub (a b : fl) : fl := fl_add a (fl_neg b).

(** Multiplication and division, used on the quotient of two counts, are
    kept exact. *)
Definition fl_mul (a b : fl) : fl :=
  match a, b with
  | NaN, _ | _, NaN => NaN
  | Fin x, Fin y => Fin (x * y)
  | Fin x, PInf | PInf, Fin x =>
      if Qeq_bool x 0 then NaN else if Qsign_neg x then NInf else PInf
  | Fin x, NInf | NInf, Fin x =>
      if Qeq_bool x 0 then NaN else if Qsign_neg x then PInf else NInf
  | PInf, PInf | NInf, NInf => PInf
  | PInf, NInf | NInf, PInf => NaN
  end.

(** True division of float64: [x / 0] is an infinity of the sign of [x], and
    [0 / 0] is NaN (a zero here is always the positive zero of a count). *)
Definition fl_div (a b : fl) : fl :=
  match a, b with
  | NaN, _ | _, NaN => NaN
  | Fin x, Fin y =>
      if Qeq_bool y 0
      then (if Qeq_bool x 0 then NaN else if Qsign_neg x then NInf else PInf)
      else Fin (x / y)
  | Fin _, (PInf | NInf) => Fin 0
  | PInf, Fin y => if Qsign_neg y then NInf else PInf
  | NInf, Fin y => if Qsign_neg y then PInf else NInf
  | (PInf | NInf), (PInf | NInf) => NaN
  end.

(** [Series.max()] of a float column: NaN is skipped, NaN when nothing is
    left. *)
Definition is_nan (a : fl) : bool :=
  match a with
  | NaN => true
  | _ => false
  end.

Definition fl_leb (a b : fl) : bool :=
  match a, b with
  | NInf, _ | _, PInf => true
  | Fin x, Fin y => Qle_bool x y
  | _, _ => false
  end.

Definition fl_max (a b : fl) : fl := if fl_leb a b then b else a.

Definition series_max (col : list fl) : fl :=
  match filter (fun a => negb (is_nan a)) col with
  | [] => NaN
  | x :: xs => fold_left fl_max xs x
  end.

(** [x > 0] on a nullable integer: a comparison with NaN is False. *)
Definition gt0_cell (x : option Z) : bool :=
  match x with
  | Some d => 0 <? d
  | None => false
  end.

(** [Series.sum()]: nulls are skipped, the empty sum is 0.  The sum is
    exact: neither the rounding of a running float64 sum nor the wrap-around
    of an int64 sum is modelled. *)
Fixpoint sum_skipna (col : list (option Q)) : Q :=
  match col with
  | [] => 0%Q
  | Some x :: col' => (x + sum_skipna col')%Q
  | None :: col' => sum_skipna col'
  end.

(** The non-null values of a column. *)
Fixpoint dropna {A : Type} (col : list (option A)) : list A :=
  match col with
  | [] => []
  | Some x :: col' => x :: dropna col'
  | None :: col' => dropna col'
  end.

(** [Series.mean()]: nulls are skipped; NaN when no value is left; else the
    float64 quotient of the sum by the count. *)
Definition mean_skipna (col : list (option Q)) : fl :=
  let count := length (dropna col) in
  match count with
  | O => NaN
  | S _ => b64 (sum_skipna col / inject_Z (Z.of_nat count))
  end.

(** [Series.nunique()]: the number of distinct non-null values. *)
Definition nunique (col : list (option string)) : nat :=
  length (nodup string_dec (dropna col)).

(** [Series.min()] and [Series.max()] of a timestamp column: nulls skipped,
    NaT when nothing is left. *)
Definition min_skipna (col : list (option Z)) : option Z :=
  match dropna col with
  | [] => None
  | x :: xs => Some (fold_left Z.min xs x)
  end.

Definition max_skipna (col : list (option Z)) : option Z :=
  match dropna col with
  | [] => None
  | x :: xs => Some (fold_left Z.max xs x)
  end.

(** A sort by a boolean order, by insertion.  Rows of equal key keep their
    order here; pandas' default sort does not fix the order among them. *)
Section Sort.
Context {A : Type} (leb : A -> A -> bool).

Fixpoint insert (x : A) (l : list A) : list A :=
  match l with
  | [] => [x]
  | y :: l' => if leb x y then x :: l else y :: insert x l'
  end.

Fixpoint sort (l : list A) : list A :=
  match l with
  | [] => []
  | x :: l' => insert x (sort l')
  end.
End Sort.

(** The keys of [groupby(key)]: distinct non-null key values in sorted order
    (rows with a null key form no group). *)
Definition group_keys (keys : list (option string)) : list string :=
  sort String.leb (nodup string_dec (dropna keys)).

(** [pd.merge(left, right, on = key, how = 'left')]: each left row is paired
    with every right row of the same key, or with null when there is none. *)
Section Merge.
Context {L R : Type} (key : L -> string).

Definition matches (k : string) (right : list (string * R)) : list R :=
  map snd (filter (fun kr => String.eqb (fst kr) k) right).

Definition merge_row (right : list (string * R)) (l : L)
  : list (L * option R) :=
  match matches (key l) right with
  | [] => [(l, None)]
  | rs => map (fun r => (l, Some r)) rs
  end.

Definition merge_left (left : list L) (right : list (string * R))
  : list (L * option R) :=
  flat_map (merge_row right) left.
End Merge.

(** [df.groupby(key)[col].agg()], as a table of (key, aggregate) rows: one row
    per key, the aggregate taken over the rows of that key. *)
Section GroupBy.
Context {Row B : Type} (key : Row -> option string) (agg : list Row -> B).

Definition has_key (k : string) (r : Row) : bool :=
  match key r with
  | Some c => String.eqb c k
  | None => false
  end.

Definition group (k : string) (df : list Row) : list Row :=
  filter (has_key k) df.

Definition groupby_agg (df : list Row) : list (string * B) :=
  map (fun k => (k, agg (group k df))) (group_keys (map key df)).
End GroupBy.

(** [Series.get(label, default)] on a Series indexed by labels. *)
Fixpoint series_get {B : Type} (s : list (string * B)) (label : string)
  (default : B) : B :=
  match s with
  | [] => default
  | (k, v) :: s' =>
      if String.eqb k label then v else series_get s' label default
  end.

(** [pd.to_datetime(col, errors = ...)]: the format is guessed from the
    column and each text cell is parsed with it.  The guess and the parser
    belong to pandas and stay abstract.  A null cell is NaT.  A cell that does
    not parse raises under [errors_raise] and becomes NaT under
    [errors_coerce]. *)
Inductive errors_mode : Type := errors_raise | errors_coerce.

Section ToDatetime.
Context {fmt : Type}
  (guess_format : list (option string) -> fmt)
  (parse : fmt -> string -> option Z).

Definition convert_cell (mode : errors_mode) (f : fmt) (c : option string)
  : option (option Z) :=
  match c with
  | None => Some None
  | Some s =>
      match parse f s with
      | Some t => Some (Some t)
      | None =>
          match mode with
          | errors_coerce => Some None
          | errors_raise => None
          end
      end
  end.

Fixpoint convert_all (mode : errors_mode) (f : fmt)
  (col : list (option string)) : option (list (option Z)) :=
  match col with
  | [] => Some []
  | c :: col' =>
      match convert_cell mode f c, convert_all mode f col' with
      | Some t, Some ts => Some (t :: ts)
      | _, _ => None
      end
  end.

(** [None] stands for the exception pandas raises. *)
Definition to_datetime (mode : errors_mode) (col : list (option string))
  : option (list (option Z)) :=
  convert_all mode (guess_format col) col.
End ToDatetime.

(** Python's fixed-point formatting of a float, [f"{x:.2f}"] and
    [f"{x:,.0f}"], and of an integer with thousands separators, [f"{n:,}"].
    The float is the binary64 number nearest to the value, and its decimal
    digits are rounded to nearest, ties to even, on that binary value. *)
Definition digits_of (z : Z) : string :=
  NilZero.string_of_uint (N.to_uint (Z.to_N z)).

Fixpoint commas_rev (rev_digits : list ascii) (k : nat) : list ascii :=
  match rev_digits with
  | [] => []
  | c :: rest =>
      match k with
      | O => ","%char :: c :: commas_rev rest 2
      | S k' => c :: commas_rev rest k'
      end
  end.

Definition with_commas (s : string) : string :=
  string_of_list_ascii
    (rev (commas_rev (rev (list_ascii_of_string s)) 3)).

Fixpoint zeros (n : nat) : string :=
  match n with
  | O => EmptyString
  | S n' => String "0"%char (zeros n')
  end.

Definition pad_left (d : nat) (s : string) : string :=
  (zeros (d - String.length s) ++ s)%string.

(** The digits of a finite number, [decimals] of them after the point. *)
Definition format_digits (decimals : nat) (commas : bool) (q : Q) : string :=
  let scale := 10 ^ Z.of_nat decimals in
  let n := round_half_even (Qabs q * inject_Z scale) in
  let int_part := digits_of (n / scale) in
  let int_part := if commas then with_commas int_part else int_part in
  let frac :=
    match decimals with
    | O => EmptyString
    | S _ => ("." ++ pad_left decimals (digits_of (n mod scale)))%string
    end in
  ((if Qsign_neg q then "-" else "") ++ int_part ++ frac)%string.

Definition format_fixed (decimals : nat) (commas : bool) (x : fl) : string :=
  match x with
  | NaN => "nan"
  | PInf => "inf"
  | NInf => "-inf"
  | Fin q =>
      match b64 q with
      | Fin q' => format_digits decimals commas q'
      | PInf => "inf"
      | NInf => "-inf"
      | NaN => "nan"
      end
  end.

Definition format_count (n : nat) : string :=
  with_commas (digits_of (Z.of_nat n)).

(** [fillna(v)] on one cell. *)
Definition fillna {A : Type} (v : A) (c : option A) : option A :=
  match c with
  | Some x => Some x
  | None => Some v
  end.

(** [DataFrame.head(n)]. *)
Definition head {A : Type} (n : nat) (df : list A) : list A := firstn n df.

End Frame.

(** ** The dashboard script *)

Module Dashboard.
Import Frame.

(** A [datetime64[ns]] value: nanoseconds since the epoch.  A
    [datetime.date]: days since the epoch. *)
Definition timestamp : Type := Z.
Definition date : Type := Z.

Definition ns_per_day : Z := 86400000000000.

(** [.dt.date]: the calendar date, time of day dropped. *)
Definition dt_date (t : timestamp) : date := t / ns_per_day.

(** [.dt.days] of a difference of two timestamps: whole days, rounded
    towards minus infinity; NaT when a side is NaT. *)
Definition td_days (a b : option timestamp) : option Z :=
  match a, b with
  | Some x, Some y => Some ((x - y) / ns_per_day)
  | _, _ => None
  end.

(** One line of [all_data.csv]; [D] is the type of the three date cells:
    text as read by [read_csv], a timestamp after [to_datetime]. *)
Record row_of (D : Type) : Type := mk_row {
  order_id : option string;
  order_status : option string;
  price : option Q;
  product_category_name_english : option string;
  review_score : option Q;
  order_purchase_timestamp : D;
  order_delivered_customer_date : D;
  order_estimated_delivery_date : D
}.

Arguments mk_row {D}.
Arguments order_id {D}.
Arguments order_status {D}.
Arguments price {D}.
Arguments product_category_name_english {D}.
Arguments review_score {D}.
Arguments order_purchase_timestamp {D}.
Arguments order_delivered_customer_date {D}.
Arguments order_estimated_delivery_date {D}.

Definition csv_row : Type := row_of (option string).
Definition order_row : Type := row_of (option timestamp).

(** *** Filter *)

(** [order_status == s]; a null status equals nothing. *)
Definition status_is (s : string) (r : order_row) : bool :=
  match order_status r with
  | Some x => String.eqb x s
  | None => false
  end.

(** [order_status.isin(['canceled', 'unavailable'])]. *)
Definition status_canceled (r : order_row) : bool :=
  status_is "canceled" r || status_is "unavailable" r.

(** [.dt.date >= start_date] and [.dt.date <= end_date]; a comparison with
    NaT is False. *)
Definition date_ge (start_date : date) (r : order_row) : bool :=
  match order_purchase_timestamp r with
  | Some t => start_date <=? dt_date t
  | None => false
  end.

Definition date_le (end_date : date) (r : order_row) : bool :=
  match order_purchase_timestamp r with
  | Some t => dt_date t <=? end_date
  | None => false
  end.

Definition main_df (all_df : list order_row) (start_date end_date : date)
  : list order_row :=
  filter (fun r => date_ge start_date r && date_le end_date r) all_df.

Definition delivered (df : list order_row) : list order_row :=
  filter (status_is "delivered") df.

(** *** KPI scalars *)

Module KPI.
Definition total_revenue (main : list order_row) : Q :=
  sum_skipna (map price (delivered main)).

Definition total_order (main : list order_row) : nat :=
  nunique (map order_id main).

Definition avg_score (main : list order_row) : fl :=
  mean_skipna (map review_score main).
End KPI.

(** *** Revenue and cancellation rate per category *)

Definition sum_price (g : list order_row) : Q := sum_skipna (map price g).
Definition count_orders (g : list order_row) : nat := nunique (map order_id g).

Definition rev_df (main : list order_row) : list (string * Q) :=
  groupby_agg product_category_name_english sum_price (delivered main).

Definition total_orders_cat (main : list order_row) : list (string * nat) :=
  groupby_agg product_category_name_english count_orders main.

Definition cancel_df (main : list order_row) : list (string * nat) :=
  groupby_agg product_category_name_english count_orders
    (filter status_canceled main).

Record q1_row : Type := {
  category : string;
  total_revenue : Q;
  total_orders : option nat;
  canceled_orders : option nat;
  cancellation_rate : fl
}.

Definition rate (canceled total : option nat) : fl :=
  fl_mul (fl_div (fl_of_cell canceled) (fl_of_cell total)) (Fin 100).

Definition q1_of (x : (string * Q) * option nat * option nat) : q1_row :=
  let '((c, rev), tot, can) := x in
  let can := fillna 0%nat can in
  {| category := c;
     total_revenue := rev;
     total_orders := tot;
     canceled_orders := can;
     cancellation_rate := rate can tot |}.

Definition q1_df (main : list order_row) : list q1_row :=
  let m1 := merge_left fst (rev_df main) (total_orders_cat main) in
  let m2 := merge_left (fun x => fst (fst x)) m1 (cancel_df main) in
  map q1_of m2.

(** [sort_values(by = 'total_revenue', ascending = False)]. *)
Definition revenue_geb (a b : q1_row) : bool :=
  Qle_bool (total_revenue b) (total_revenue a).

Definition top_10_df (main : list order_row) : list q1_row :=
  head 10 (sort revenue_geb (q1_df main)).

(** *** Delivery delay and review score *)

Definition late_label : string := "Terlambat (Late)".
Definition ontime_label : string := "Tepat Waktu (On Time)".

Definition notnull {A : Type} (c : option A) : bool :=
  match c with
  | Some _ => true
  | None => false
  end.

Definition q2_mask (r : order_row) : bool :=
  status_is "delivered" r
  && notnull (order_delivered_customer_date r)
  && notnull (order_estimated_delivery_date r).

Record q2_row : Type := {
  order : order_row;
  delay_days : option Z;
  delivery_status : string
}.

Definition status_of_delay (x : option Z) : string :=
  if gt0_cell x then late_label else ontime_label.

Definition q2_of (r : order_row) : q2_row :=
  let d := td_days (order_delivered_customer_date r)
                   (order_estimated_delivery_date r) in
  {| order := r; delay_days := d; delivery_status := status_of_delay d |}.

Definition q2_df (main : list order_row) : list q2_row :=
  map q2_of (filter q2_mask main).

Definition mean_score (g : list q2_row) : fl :=
  mean_skipna (map (fun q => review_score (order q)) g).

Definition score_summary (q2 : list q2_row) : list (string * fl) :=
  groupby_agg (fun q => Some (delivery_status q)) mean_score q2.

Definition late_score (q2 : list q2_row) : fl :=
  series_get (score_summary q2) late_label (Fin 0).

Definition ontime_score (q2 : list q2_row) : fl :=
  series_get (score_summary q2) ontime_label (Fin 0).

(** *** The script run

    A run of the script emits Streamlit elements in order and ends normally,
    at [st.stop()], or with an uncaught exception.  Two calls raise: a date
    widget whose bounds are NaT, and [set_ylim] with a limit that is not a
    finite number.  A figure is the event of handing its data to the
    plotting library.  The decorative emoji of the text literals are left
    out. *)

Inductive event : Type :=
| st_text (element text : string)
| st_error (message : string)
| st_date_input (label : string) (min_value max_value : option date)
    (value : date)
| st_caption_range (min_date max_date : option date)
| st_metric (label value : string) (delta : option string)
| ax2_set_ylim (bottom top : fl)
| st_pyplot_fig1 (data : list q1_row)
| st_pyplot_fig2 (data : list q2_row)
| st_write (text : string).

Inductive outcome (A : Type) : Type :=
| Value (a : A)
| Halt
| Uncaught.

Arguments Value {A}.
Arguments Halt {A}.
Arguments Uncaught {A}.

Definition script (A : Type) : Type := (list event * outcome A)%type.

Definition ret {A : Type} (a : A) : script A := ([], Value a).

Definition bind {A B : Type} (m : script A) (k : A -> script B) : script B :=
  match m with
  | (ev, Value a) => let (ev', b) := k a in (ev ++ ev', b)
  | (ev, Halt) => (ev, Halt)
  | (ev, Uncaught) => (ev, Uncaught)
  end.

Definition emit (e : event) : script unit := ([e], Value tt).
Definition st_stop {A : Type} : script A := ([], Halt).
Definition raise {A : Type} : script A := ([], Uncaught).

Definition is_finite (a : fl) : bool :=
  match a with
  | Fin _ => true
  | _ => false
  end.

Notation "x <- m ;; k" := (bind m (fun x => k))
  (at level 61, m at next level, right associativity).
Notation "m ;; k" := (bind m (fun _ => k))
  (at level 61, right associativity).

Definition nl : string := String (ascii_of_nat 10) EmptyString.

Definition not_found_message : string :=
  "File 'all_data.csv' tidak ditemukan. Pastikan Anda telah menjalankan kode penggabungan data sebelumnya.".

Definition invalid_range_message : string :=
  "Tanggal 'Mulai' tidak boleh lebih besar dari 'Sampai'.".

Definition fmt2 (x : fl) : string := format_fixed 2 false x.

Definition narrative (late ontime : fl) : string :=
  (nl ++ "    Terdapat penurunan skor yang signifikan sebesar **"
     ++ fmt2 (fl_sub ontime late)
     ++ " poin** ketika pengiriman terlambat." ++ nl
     ++ "    " ++ nl
     ++ "    Pelanggan yang menerima barang tepat waktu cenderung memberikan skor nyaris sempurna, sedangkan keterlambatan membuat skor anjlok ke angka **"
     ++ fmt2 late
     ++ "** (kategori buruk/cukup)." ++ nl ++ "    ")%string.

Fixpoint with_dates (df : list csv_row) (p d e : list (option timestamp))
  : list order_row :=
  match df, p, d, e with
  | r :: df', tp :: p', td :: d', te :: e' =>
      mk_row (order_id r) (order_status r) (price r)
        (product_category_name_english r) (review_score r) tp td te
      :: with_dates df' p' d' e'
  | _, _, _, _ => []
  end.

(** The memo of [st.cache_data]: the elements and the value of the first
    call of [load_data] that returned. *)
Definition cache : Type :=
  option (list event * option (list order_row)).

Section Script.
Context {fmt : Type}
  (guess_format : list (option string) -> fmt)
  (parse : fmt -> string -> option timestamp).

Definition date_column (col : csv_row -> option string)
  (df : list csv_row) : option (list (option timestamp)) :=
  to_datetime guess_format parse errors_coerce (map col df).

(** [file] is the content of all_data.csv, [None] when it does not exist.
    Only [FileNotFoundError] is caught. *)
Definition load_data (file : option (list csv_row))
  : script (option (list order_row)) :=
  match file with
  | None => emit (st_error not_found_message) ;; ret None
  | Some df =>
      match date_column order_purchase_timestamp df,
            date_column order_delivered_customer_date df,
            date_column order_estimated_delivery_date df with
      | Some p, Some d, Some e => ret (Some (with_dates df p d e))
      | _, _, _ => ([], Uncaught)
      end
  end.

Definition cached_load_data (c : cache) (file : option (list csv_row))
  : script (option (list order_row)) * cache :=
  match c with
  | Some (ev, v) => ((ev, Value v), c)
  | None =>
      match load_data file with
      | (ev, Value v) => ((ev, Value v), Some (ev, v))
      | r => (r, None)
      end
  end.

Definition sidebar (all_df : list order_row) (start_date end_date : date)
  : script unit :=
  emit (st_text "header" "Filter Waktu") ;;
  let min_date :=
    option_map dt_date (min_skipna (map order_purchase_timestamp all_df)) in
  let max_date :=
    option_map dt_date (max_skipna (map order_purchase_timestamp all_df)) in
  match min_date, max_date with
  | Some _, Some _ =>
      emit (st_date_input "Mulai Dari" min_date max_date start_date) ;;
      emit (st_date_input "Sampai" min_date max_date end_date) ;;
      (if end_date <? start_date
       then emit (st_error invalid_range_message) ;; st_stop
       else ret tt) ;;
      emit (st_caption_range min_date max_date)
  | _, _ => raise
  end.

Definition kpi_section (main : list order_row) : script unit :=
  emit (st_text "markdown" "### Ringkasan Performa") ;;
  emit (st_metric "Total Revenue"
          (format_fixed 0 true (Fin (KPI.total_revenue main))) None) ;;
  emit (st_metric "Total Pesanan" (format_count (KPI.total_order main))
          None) ;;
  emit (st_metric "Rata-rata Skor Review"
          (fmt2 (KPI.avg_score main) ++ " / 5.0") None) ;;
  emit (st_text "markdown" "---").

Definition category_section (main : list order_row) : script unit :=
  emit (st_text "header" "1. Analisis Kategori Produk") ;;
  emit (st_text "subheader" "Revenue Tertinggi vs Tingkat Pembatalan") ;;
  let top := top_10_df main in
  let limit :=
    fl_mul (series_max (map cancellation_rate top)) (Fin (15 # 10)) in
  emit (ax2_set_ylim (Fin 0) limit) ;;
  (if is_finite limit then ret tt else raise) ;;
  emit (st_pyplot_fig1 top) ;;
  emit (st_text "expander" "Lihat Penjelasan Insight") ;;
  emit (st_text "markdown" "---").

Definition delay_section (main : list order_row) : script unit :=
  emit (st_text "header" "2. Analisis Kepuasan Pelanggan") ;;
  emit (st_text "subheader"
          "Pengaruh Keterlambatan Pengiriman terhadap Skor Ulasan") ;;
  let q2 := q2_df main in
  emit (st_pyplot_fig2 q2) ;;
  emit (st_text "info" "Key Takeaways") ;;
  let late := late_score q2 in
  let ontime := ontime_score q2 in
  emit (st_metric "Skor: Tepat Waktu" (fmt2 ontime) None) ;;
  emit (st_metric "Skor: Terlambat" (fmt2 late)
          (Some (fmt2 (fl_sub late ontime)))) ;;
  emit (st_write (narrative late ontime)) ;;
  emit (st_text "markdown" "---") ;;
  emit (st_text "caption" "Dashboard Proyek Analisis Data - Dicoding").

(** The part of the script below the load: the render path. *)
Definition render (all_df : list order_row) (start_date end_date : date)
  : script unit :=
  sidebar all_df start_date end_date ;;
  let main := main_df all_df start_date end_date in
  kpi_section main ;;
  category_section main ;;
  delay_section main.

Definition header : script unit :=
  emit (st_text "title" "E-Commerce Business Insights Dashboard") ;;
  emit (st_text "markdown"
          "Dashboard ini menampilkan hasil analisis performa kategori produk dan dampak logistik terhadap kepuasan pelanggan.").

(** One run of the script, from the top, with the two dates the widgets
    return; the second component is the memo after the run. *)
Definition run (c : cache) (file : option (list csv_row))
  (start_date end_date : date) : script unit * cache :=
  let (loaded, c') := cached_load_data c file in
  (header ;;
   all_df <- loaded ;;
   match all_df with
   | None => st_stop
   | Some all_df => render all_df start_date end_date
   end,
   c').

(** A session: the script is run again, from the top, on every input. *)
Fixpoint session (c : cache) (file : option (list csv_row))
  (inputs : list (date * date)) : list (script unit) :=
  match inputs with
  | [] => []
  | (start_date, end_date) :: inputs' =>
      let (r, c') := run c file start_date end_date in
      r :: session c' file inputs'
  end.
End Script.

(** Elements that show a value computed from the filtered table. *)
Definition shows_aggregate (e : event) : bool :=
  match e with
  | st_metric _ _ _ | ax2_set_ylim _ _ | st_pyplot_fig1 _ | st_pyplot_fig2 _
  | st_write _ => true
  | _ => false
  end.

End Dashboard.

(** ** Facts about the frame operations *)

Module FrameFacts.
Import Frame.

Lemma In_dropna {A : Type} (x : A) (col : list (option A)) :
  In x (dropna col) <-> In (Some x) col.
Proof.
  induction col as [| [y |] col IH]; simpl.
  - tauto.
  - rewrite IH. split; intros [H | H]; auto; left; congruence.
  - rewrite IH. split; [auto | intros [H | H]; [discriminate | exact H]].
Qed.

Lemma dropna_map_incl {Row A : Type} (f : Row -> option A) (df df' : list Row) :
  incl df df' -> incl (dropna (map f df)) (dropna (map f df')).
Proof.
  intros Hincl x Hx. apply In_dropna in Hx. apply In_dropna.
  apply in_map_iff in Hx. destruct Hx as [r [Hr Hin]].
  apply in_map_iff. exists r. split; [exact Hr | apply Hincl, Hin].
Qed.

(** Fewer rows, no more distinct values. *)
Lemma nunique_incl {Row : Type} (f : Row -> option string) (df df' : list Row) :
  incl df df' -> (nunique (map f df) <= nunique (map f df'))%nat.
Proof.
  intros Hincl. unfold nunique. apply NoDup_incl_length.
  - apply NoDup_nodup.
  - intros x Hx. apply nodup_In in Hx. apply nodup_In.
    revert x Hx. apply dropna_map_incl, Hincl.
Qed.

Lemma nunique_pos_iff (col : list (option string)) :
  (1 <= nunique col)%nat <-> exists s, In (Some s) col.
Proof.
  unfold nunique. split.
  - intros H. destruct (nodup string_dec (dropna col)) as [| s l] eqn:E.
    + simpl in H. lia.
    + exists s. apply In_dropna. apply (nodup_In string_dec).
      rewrite E. left. reflexivity.
  - intros [s Hs]. apply In_dropna in Hs. apply (nodup_In string_dec) in Hs.
    destruct (nodup string_dec (dropna col)); [contradiction | simpl; lia].
Qed.

Lemma nunique_nil_of_all_null (col : list (option string)) :
  (forall s, ~ In (Some s) col) -> nunique col = 0%nat.
Proof.
  intros H. destruct (nunique col) eqn:E; [reflexivity |].
  assert (Hpos : (1 <= nunique col)%nat) by lia.
  apply nunique_pos_iff in Hpos. destruct Hpos as [s Hs].
  exfalso. exact (H s Hs).
Qed.

Section SortFacts.
Context {A : Type} (leb : A -> A -> bool).

Lemma insert_perm (x : A) (l : list A) :
  Permutation (insert leb x l) (x :: l).
Proof.
  induction l as [| y l IH]; simpl.
  - apply Permutation_refl.
  - destruct (leb x y).
    + apply Permutation_refl.
    + eapply perm_trans; [apply perm_skip, IH | apply perm_swap].
Qed.

Lemma sort_perm (l : list A) : Permutation (sort leb l) l.
Proof.
  induction l as [| x l IH]; simpl.
  - constructor.
  - eapply perm_trans; [apply insert_perm | apply perm_skip, IH].
Qed.

Lemma sort_length (l : list A) : length (sort leb l) = length l.
Proof. apply Permutation_length, sort_perm. Qed.

Lemma sort_In (x : A) (l : list A) : In x (sort leb l) <-> In x l.
Proof.
  split; apply Permutation_in;
    [apply sort_perm | apply Permutation_sym, sort_perm].
Qed.

Lemma sort_NoDup (l : list A) : NoDup l -> NoDup (sort leb l).
Proof.
  apply Permutation_NoDup, Permutation_sym, sort_perm.
Qed.

Hypothesis leb_total : forall a b, leb a b = true \/ leb b a = true.
Hypothesis leb_trans :
  forall a b c, leb a b = true -> leb b c = true -> leb a c = true.

Let le (a b : A) : Prop := leb a b = true.

Lemma insert_sorted (x : A) (l : list A) :
  StronglySorted le l -> StronglySorted le (insert leb x l).
Proof.
  induction 1 as [| y l Hs IH Hall]; simpl.
  - constructor; constructor.
  - destruct (leb x y) eqn:E.
    + constructor.
      * constructor; assumption.
      * constructor; [exact E |].
        eapply Forall_impl; [| exact Hall].
        intros z Hz. exact (leb_trans _ _ _ E Hz).
    + constructor; [exact IH |].
      assert (Hyx : le y x).
      { destruct (leb_total x y) as [H | H]; [congruence | exact H]. }
      rewrite Forall_forall. intros z Hz.
      apply (Permutation_in _ (insert_perm x l)) in Hz.
      destruct Hz as [<- | Hz]; [exact Hyx |].
      rewrite Forall_forall in Hall. apply Hall, Hz.
Qed.

Lemma sort_sorted (l : list A) : StronglySorted le (sort leb l).
Proof.
  induction l as [| x l IH]; simpl.
  - constructor.
  - apply insert_sorted, IH.
Qed.
End SortFacts.

Lemma In_firstn {A : Type} (n : nat) (l : list A) (x : A) :
  In x (firstn n l) -> In x l.
Proof.
  intros H. rewrite <- (firstn_skipn n l). apply in_or_app. left. exact H.
Qed.

Lemma firstn_sorted {A : Type} (R : A -> A -> Prop) (n : nat) (l : list A) :
  StronglySorted R l -> StronglySorted R (firstn n l).
Proof.
  intros H. revert n. induction H as [| x l Hs IH Hall]; intros [| n]; simpl;
    try constructor.
  - apply IH.
  - rewrite Forall_forall in *. intros y Hy. apply Hall.
    exact (In_firstn _ _ _ Hy).
Qed.

Lemma In_group_keys (k : string) (keys : list (option string)) :
  In k (group_keys keys) <-> In (Some k) keys.
Proof.
  unfold group_keys. rewrite sort_In, nodup_In. apply In_dropna.
Qed.

Lemma NoDup_group_keys (keys : list (option string)) :
  NoDup (group_keys keys).
Proof. apply sort_NoDup, NoDup_nodup. Qed.

Lemma length_group_keys (keys : list (option string)) :
  length (group_keys keys) = nunique keys.
Proof. unfold group_keys, nunique. apply sort_length. Qed.

Section GroupFacts.
Context {Row : Type} (key : Row -> option string).

Lemma In_group (k : string) (df : list Row) (r : Row) :
  In r (group key k df) <-> In r df /\ key r = Some k.
Proof.
  unfold group, has_key. rewrite filter_In.
  destruct (key r) as [c |].
  - destruct (String.eqb_spec c k) as [-> | Hne].
    + tauto.
    + split; [intros [_ H]; discriminate | intros [_ H]; congruence].
  - split; intros [_ H]; discriminate.
Qed.

Lemma group_incl (k : string) (df df' : list Row) :
  incl df df' -> incl (group key k df) (group key k df').
Proof.
  intros Hincl r Hr. apply In_group in Hr. apply In_group.
  split; [apply Hincl |]; tauto.
Qed.

Lemma group_absent (k : string) (df : list Row) :
  ~ In (Some k) (map key df) -> group key k df = [].
Proof.
  intros Hno. destruct (group key k df) as [| r g] eqn:E; [reflexivity |].
  exfalso. apply Hno.
  assert (Hr : In r (group key k df)) by (rewrite E; left; reflexivity).
  apply In_group in Hr. destruct Hr as [Hin Hk].
  rewrite <- Hk. apply in_map, Hin.
Qed.
End GroupFacts.

Section MergeFacts.
Context {R : Type} (g : string -> R).

Definition table (ks : list string) : list (string * R) :=
  map (fun k => (k, g k)) ks.

Lemma matches_table (ks : list string) (k : string) :
  NoDup ks ->
  matches k (table ks) = if in_dec string_dec k ks then [g k] else [].
Proof.
  unfold matches, table. induction 1 as [| a ks Hnotin Hnd IH]; simpl.
  - reflexivity.
  - destruct (String.eqb_spec a k) as [Heq | Hne]; simpl.
    + destruct (string_dec a k) as [_ | Hkk]; [| congruence].
      rewrite IH. destruct (in_dec string_dec k ks) as [Hin | _].
      * exfalso. apply Hnotin. rewrite Heq. exact Hin.
      * rewrite Heq. reflexivity.
    + destruct (string_dec a k) as [Heq | Hak]; [congruence |].
      rewrite IH. destruct (in_dec string_dec k ks); reflexivity.
Qed.

Lemma series_get_table (ks : list string) (k : string) (d : R) :
  series_get (table ks) k d = if in_dec string_dec k ks then g k else d.
Proof.
  unfold table. induction ks as [| a ks IH]; cbn [map series_get].
  - reflexivity.
  - destruct (String.eqb_spec a k) as [Heq | Hne].
    + destruct (in_dec string_dec k (a :: ks)) as [_ | Hno].
      * rewrite Heq. reflexivity.
      * exfalso. apply Hno. left. exact Heq.
    + rewrite IH.
      destruct (in_dec string_dec k ks) as [Hin | Hno];
        destruct (in_dec string_dec k (a :: ks)) as [H | H];
        try reflexivity; exfalso.
      * apply H. right. exact Hin.
      * destruct H as [H | H]; [congruence | contradiction].
Qed.

(** On a right table with one row per key, the left join keeps the left
    rows one for one. *)
Lemma merge_left_table {L : Type} (key : L -> string) (left : list L)
  (ks : list string) :
  NoDup ks ->
  merge_left key left (table ks)
  = map (fun l =>
           (l, if in_dec string_dec (key l) ks then Some (g (key l))
               else None))
      left.
Proof.
  intros Hnd. unfold merge_left.
  induction left as [| l left IH]; cbn [flat_map map]; [reflexivity |].
  rewrite IH. unfold merge_row. rewrite (matches_table ks (key l) Hnd).
  destruct (in_dec string_dec (key l) ks); reflexivity.
Qed.
End MergeFacts.

(** The percentage [c / t * 100] of two counts. *)
Definition percent (c t : nat) : Q :=
  (inject_Z (Z.of_nat c) / inject_Z (Z.of_nat t) * 100)%Q.

Lemma fl_percent_pos (c t : nat) :
  (1 <= t)%nat ->
  fl_mul (fl_div (fl_of_nat c) (fl_of_nat t)) (Fin 100) = Fin (percent c t).
Proof.
  intros Ht. destruct t as [| t]; [lia |]. reflexivity.
Qed.

Lemma fl_percent_zero :
  fl_mul (fl_div (fl_of_nat 0) (fl_of_nat 0)) (Fin 100) = NaN.
Proof. reflexivity. Qed.

Lemma percent_range (c t : nat) :
  (c <= t)%nat -> (1 <= t)%nat -> (0 <= percent c t /\ percent c t <= 100)%Q.
Proof.
  intros Hct Ht. unfold percent.
  assert (Hc : (0 <= inject_Z (Z.of_nat c))%Q).
  { change 0%Q with (inject_Z 0). rewrite <- Zle_Qle. lia. }
  assert (Hpos : (0 < inject_Z (Z.of_nat t))%Q).
  { change 0%Q with (inject_Z 0). rewrite <- Zlt_Qlt. lia. }
  assert (Hle : (inject_Z (Z.of_nat c) <= inject_Z (Z.of_nat t))%Q).
  { rewrite <- Zle_Qle. lia. }
  split.
  - apply Qmult_le_0_compat; [| discriminate].
    apply Qle_shift_div_l; [exact Hpos |].
    rewrite Qmult_0_l. exact Hc.
  - setoid_replace 100%Q with (1 * 100)%Q at 2 by reflexivity.
    apply Qmult_le_compat_r; [| discriminate].
    apply Qle_shift_div_r; [exact Hpos |].
    rewrite Qmult_1_l. exact Hle.
Qed.

Lemma merge_left_groupby {L Row B : Type} (key : L -> string)
  (rkey : Row -> option string) (agg : list Row -> B)
  (left : list L) (df : list Row) :
  merge_left key left (groupby_agg rkey agg df)
  = map (fun l =>
           (l, if in_dec string_dec (key l) (group_keys (map rkey df))
               then Some (agg (group rkey (key l) df))
               else None))
      left.
Proof.
  exact (merge_left_table (fun k => agg (group rkey k df)) key left _
           (NoDup_group_keys _)).
Qed.

Lemma series_get_groupby {Row B : Type} (rkey : Row -> option string)
  (agg : list Row -> B) (df : list Row) (k : string) (d : B) :
  series_get (groupby_agg rkey agg df) k d
  = if in_dec string_dec k (group_keys (map rkey df))
    then agg (group rkey k df)
    else d.
Proof.
  exact (series_get_table (fun k => agg (group rkey k df)) _ k d).
Qed.

End FrameFacts.

(** ** Properties of the dashboard *)

Module DashboardProps.
Import Frame FrameFacts Dashboard.

Lemma delivered_incl (main : list order_row) : incl (delivered main) main.
Proof. intros r Hr. apply filter_In in Hr. tauto. Qed.

Lemma canceled_incl (main : list order_row) :
  incl (filter status_canceled main) main.
Proof. intros r Hr. apply filter_In in Hr. tauto. Qed.

(** The categories of the delivered rows, as [groupby] lists them. *)
Definition delivered_categories (main : list order_row) : list string :=
  group_keys (map product_category_name_english (delivered main)).

(** The joined row of one category. *)
Definition q1_for (main : list order_row) (c : string) : q1_row :=
  let tot := Some (count_orders (group product_category_name_english c main)) in
  let can :=
    Some (count_orders
            (group product_category_name_english c
               (filter status_canceled main))) in
  {| category := c;
     total_revenue :=
       sum_price (group product_category_name_english c (delivered main));
     total_orders := tot;
     canceled_orders := can;
     cancellation_rate := rate can tot |}.

Lemma In_delivered_categories (main : list order_row) (c : string) :
  In c (delivered_categories main)
  <-> exists r, In r main /\ order_status r = Some "delivered"%string
                /\ product_category_name_english r = Some c.
Proof.
  unfold delivered_categories, delivered.
  rewrite In_group_keys, in_map_iff. split.
  - intros [r [Hc Hr]]. apply filter_In in Hr. destruct Hr as [Hin Hst].
    exists r. repeat split; try assumption.
    unfold status_is in Hst. destruct (order_status r) as [s |];
      [| discriminate].
    apply String.eqb_eq in Hst. congruence.
  - intros [r [Hin [Hst Hc]]]. exists r. split; [exact Hc |].
    apply filter_In. split; [exact Hin |].
    unfold status_is. rewrite Hst. apply String.eqb_refl.
Qed.

(** The two left joins keep one row per delivered category, and both joined
    cells are filled. *)
Lemma q1_df_rows (main : list order_row) :
  q1_df main = map (q1_for main) (delivered_categories main).
Proof.
  unfold q1_df, total_orders_cat, cancel_df.
  rewrite !merge_left_groupby.
  unfold rev_df, groupby_agg, delivered_categories.
  rewrite !map_map. apply map_ext_in. intros c Hc. cbn [fst snd q1_of].
  unfold q1_for.
  destruct (in_dec string_dec c
              (group_keys (map product_category_name_english main)))
    as [_ | Hno].
  - destruct (in_dec string_dec c
                (group_keys
                   (map product_category_name_english
                      (filter status_canceled main))))
      as [_ | Hnc]; cbn [fillna]; [reflexivity |].
    rewrite In_group_keys in Hnc.
    rewrite (group_absent product_category_name_english c _ Hnc). reflexivity.
  - exfalso. apply Hno. apply In_group_keys. apply In_group_keys in Hc.
    apply in_map_iff in Hc. destruct Hc as [r [Hr Hin]].
    apply in_map_iff. exists r. split; [exact Hr |].
    apply (delivered_incl main), Hin.
Qed.

Lemma In_q1_df (main : list order_row) (x : q1_row) :
  In x (q1_df main)
  <-> In (category x) (delivered_categories main)
      /\ x = q1_for main (category x).
Proof.
  rewrite q1_df_rows, in_map_iff. split.
  - intros [c [<- Hc]]. split; [exact Hc | reflexivity].
  - intros [Hc Hx]. exists (category x). split; [symmetry; exact Hx | exact Hc].
Qed.

Lemma q1_df_category_column (main : list order_row) :
  map category (q1_df main) = delivered_categories main.
Proof.
  rewrite q1_df_rows, map_map. apply map_id.
Qed.

(** The rows of one category with a canceled or unavailable order. *)
Definition canceled_in (main : list order_row) (c : string) : list order_row :=
  group product_category_name_english c (filter status_canceled main).

Lemma canceled_in_nil (main : list order_row) (c : string) :
  (forall r, In r main -> product_category_name_english r = Some c ->
             status_canceled r = false) ->
  canceled_in main c = [].
Proof.
  intros H. unfold canceled_in.
  destruct (group _ c _) as [| r g] eqn:E; [reflexivity |].
  assert (Hr : In r (group product_category_name_english c
                       (filter status_canceled main)))
    by (rewrite E; left; reflexivity).
  apply In_group in Hr. destruct Hr as [Hin Hc].
  apply filter_In in Hin. destruct Hin as [Hin Hcan].
  rewrite (H r Hin Hc) in Hcan. discriminate.
Qed.

(** C1: the joined category table [q1_df] has one row for each category that
    has a delivered row in the filtered table, and for no other category (so
    a category whose rows are all canceled or unavailable is absent); in
    every row [canceled_orders] is a number, the count of distinct canceled
    order ids of the category, which is 0 when the category has no canceled
    row.  The top-10 table holds rows of [q1_df] only. *)
Theorem C1_q1_df_categories (main : list order_row) :
  (forall c,
      In c (map category (q1_df main))
      <-> exists r, In r main /\ order_status r = Some "delivered"%string
                    /\ product_category_name_english r = Some c)
  /\ NoDup (map category (q1_df main))
  /\ (forall c,
         (forall r, In r main -> product_category_name_english r = Some c ->
                    order_status r <> Some "delivered"%string) ->
         ~ In c (map category (q1_df main)))
  /\ (forall x,
         In x (q1_df main) ->
         canceled_orders x
         = Some (count_orders (canceled_in main (category x)))
         /\ ((forall r, In r main ->
                        product_category_name_english r = Some (category x) ->
                        status_canceled r = false) ->
             canceled_orders x = Some 0%nat))
  /\ incl (top_10_df main) (q1_df main).
Proof.
  rewrite q1_df_category_column. repeat split.
  - apply In_delivered_categories.
  - apply In_delivered_categories.
  - apply NoDup_group_keys.
  - intros c Hnone Hc. apply In_delivered_categories in Hc.
    destruct Hc as [r [Hin [Hst Hc]]]. exact (Hnone r Hin Hc Hst).
  - apply In_q1_df in H. destruct H as [_ ->]. reflexivity.
  - intros Hnone. apply In_q1_df in H. destruct H as [_ Hx].
    rewrite Hx. cbn [canceled_orders q1_for category].
    fold (canceled_in main (category x)).
    rewrite (canceled_in_nil main (category x) Hnone). reflexivity.
  - intros x Hx. unfold top_10_df, head in Hx. apply In_firstn in Hx.
    apply sort_In in Hx. exact Hx.
Qed.

(** Some row of category [c] carries an order id. *)
Definition has_order_id (main : list order_row) (c : string) : Prop :=
  exists r, In r main /\ product_category_name_english r = Some c
            /\ order_id r <> None.

Lemma count_orders_pos_iff (main : list order_row) (c : string) :
  (1 <= count_orders (group product_category_name_english c main))%nat
  <-> has_order_id main c.
Proof.
  unfold count_orders, has_order_id. rewrite nunique_pos_iff. split.
  - intros [s Hs]. apply in_map_iff in Hs. destruct Hs as [r [Hid Hr]].
    apply In_group in Hr. destruct Hr as [Hin Hc].
    exists r. repeat split; try assumption. congruence.
  - intros [r [Hin [Hc Hid]]]. destruct (order_id r) as [s |] eqn:E;
      [| congruence].
    exists s. apply in_map_iff. exists r. split; [exact E |].
    apply In_group. split; assumption.
Qed.

Lemma canceled_le_total (main : list order_row) (c : string) :
  (count_orders (canceled_in main c)
   <= count_orders (group product_category_name_english c main))%nat.
Proof.
  unfold count_orders, canceled_in.
  apply nunique_incl, group_incl, canceled_incl.
Qed.

(** The two counts of a joined row and the rate computed from them. *)
Lemma joined_counts (main : list order_row) (x : q1_row) :
  In x (q1_df main) ->
  exists c t,
    canceled_orders x = Some c /\ total_orders x = Some t
    /\ (c <= t)%nat
    /\ cancellation_rate x
       = fl_mul (fl_div (fl_of_nat c) (fl_of_nat t)) (Fin 100)
    /\ ((1 <= t)%nat <-> has_order_id main (category x)).
Proof.
  intros Hx. apply In_q1_df in Hx. destruct Hx as [_ Hx].
  set (k := category x) in *.
  exists (count_orders (canceled_in main k)),
    (count_orders (group product_category_name_english k main)).
  rewrite Hx. cbn [canceled_orders total_orders cancellation_rate q1_for].
  fold (canceled_in main k).
  repeat split; try reflexivity.
  - apply canceled_le_total.
  - apply count_orders_pos_iff.
  - apply count_orders_pos_iff.
Qed.

(** Two tables with one order line that has no order id. *)
Definition no_id_delivered : list order_row :=
  [ mk_row None (Some "delivered"%string) (Some 10%Q) (Some "Toys"%string)
      None (Some 0) None None ].

Definition no_id_orders : list order_row :=
  [ mk_row None (Some "delivered"%string) (Some 25%Q) (Some "Auto"%string)
      (Some 4%Q) (Some 0) (Some ns_per_day) (Some 0);
    mk_row None (Some "canceled"%string) (Some 5%Q) (Some "Auto"%string)
      None (Some 0) None None ].

(** C2, as stated, fails: the one output row of a category whose rows have
    no order id has [total_orders = 0] and a NaN rate, which is not in
    [0, 100]. *)
Lemma C2_rate_nan_without_order_id :
  q1_df no_id_delivered
  = [ {| category := "Toys"; total_revenue := 10;
         total_orders := Some 0%nat; canceled_orders := Some 0%nat;
         cancellation_rate := NaN |} ]
  /\ ~ (forall x, In x (q1_df no_id_delivered) ->
                  exists q, cancellation_rate x = Fin q
                            /\ (0 <= q /\ q <= 100)%Q).
Proof.
  assert (E : q1_df no_id_delivered
              = [ {| category := "Toys"; total_revenue := 10;
                     total_orders := Some 0%nat; canceled_orders := Some 0%nat;
                     cancellation_rate := NaN |} ])
    by (vm_compute; reflexivity).
  split; [exact E |].
  intros H. rewrite E in H.
  destruct (H _ (or_introl eq_refl)) as [q [Hq _]]. discriminate.
Qed.

(** C2 (amended): in every row of [q1_df], [canceled_orders] and
    [total_orders] are the numbers of distinct order ids of the canceled or
    unavailable rows and of all rows of the category in the filtered table;
    [canceled_orders <= total_orders]; [cancellation_rate] is their float
    quotient times 100; and when some row of the category carries an order
    id, [total_orders >= 1] and the rate is the number
    [canceled_orders / total_orders * 100], within [0, 100].  When no row of
    the category carries an order id the rate is NaN. *)
Theorem C2_cancellation_rate (main : list order_row) (x : q1_row) :
  In x (q1_df main) ->
  exists c t,
    canceled_orders x = Some c /\ total_orders x = Some t
    /\ c = nunique (map order_id (canceled_in main (category x)))
    /\ t = nunique
             (map order_id
                (group product_category_name_english (category x) main))
    /\ (c <= t)%nat
    /\ cancellation_rate x
       = fl_mul (fl_div (fl_of_nat c) (fl_of_nat t)) (Fin 100)
    /\ (has_order_id main (category x) ->
        (1 <= t)%nat
        /\ cancellation_rate x = Fin (percent c t)
        /\ (0 <= percent c t /\ percent c t <= 100)%Q)
    /\ (~ has_order_id main (category x) -> cancellation_rate x = NaN).
Proof.
  intros Hx. apply In_q1_df in Hx. destruct Hx as [_ Hx].
  set (k := category x) in *.
  exists (count_orders (canceled_in main k)),
    (count_orders (group product_category_name_english k main)).
  pose proof (canceled_le_total main k) as Hle.
  pose proof (count_orders_pos_iff main k) as Hpos.
  rewrite Hx. cbn [canceled_orders total_orders cancellation_rate q1_for].
  fold (canceled_in main k).
  repeat split; try reflexivity; try exact Hle.
  - apply Hpos, H.
  - unfold rate, fl_of_cell. apply fl_percent_pos, Hpos, H.
  - apply percent_range; [exact Hle | apply Hpos, H].
  - apply percent_range; [exact Hle | apply Hpos, H].
  - intros Hno.
    assert (Ht : count_orders (group product_category_name_english k main)
                 = 0%nat).
    { destruct (Nat.eq_dec
                  (count_orders
                     (group product_category_name_english k main)) 0)
        as [E | E]; [exact E |].
      exfalso. apply Hno, Hpos. lia. }
    rewrite Ht in *.
    assert (Hc : count_orders (canceled_in main k) = 0%nat) by lia.
    rewrite Hc. reflexivity.
Qed.

(** The table of the worked example: three delivered orders of category
    Toys, priced 10, 20 and 30, and one canceled order of Toys. *)
Definition toys_line (id status : string) (p : Z) (score : option Q)
  : order_row :=
  mk_row (Some id) (Some status) (Some (inject_Z p)) (Some "Toys"%string)
    score (Some 0) None None.

Definition toys_table : list order_row :=
  [ toys_line "o1" "delivered" 10 (Some 5%Q);
    toys_line "o2" "delivered" 20 None;
    toys_line "o3" "delivered" 30 (Some 4%Q);
    toys_line "o4" "canceled" 15 None ].

Definition toys_row : q1_row :=
  {| category := "Toys"; total_revenue := 60;
     total_orders := Some 4%nat; canceled_orders := Some 1%nat;
     cancellation_rate := Fin (100 # 4) |}.

Example q1_df_toys : q1_df toys_table = [toys_row].
Proof. vm_compute. reflexivity. Qed.

Example toys_rate_is_25 : (percent 1 4 == 25)%Q.
Proof. reflexivity. Qed.

Lemma C2_cancellation_rate_witness :
  In toys_row (q1_df toys_table)
  /\ exists c t,
      canceled_orders toys_row = Some c /\ total_orders toys_row = Some t
      /\ c = nunique (map order_id (canceled_in toys_table "Toys"))
      /\ t = nunique
               (map order_id
                  (group product_category_name_english "Toys" toys_table))
      /\ (c <= t)%nat
      /\ cancellation_rate toys_row
         = fl_mul (fl_div (fl_of_nat c) (fl_of_nat t)) (Fin 100)
      /\ (has_order_id toys_table "Toys" ->
          (1 <= t)%nat
          /\ cancellation_rate toys_row = Fin (percent c t)
          /\ (0 <= percent c t /\ percent c t <= 100)%Q)
      /\ (~ has_order_id toys_table "Toys" ->
          cancellation_rate toys_row = NaN).
Proof.
  assert (Hin : In toys_row (q1_df toys_table))
    by (vm_compute; left; reflexivity).
  split; [exact Hin |].
  exact (C2_cancellation_rate toys_table toys_row Hin).
Defined.

(** C10, as stated, fails: a category whose delivered row has no order id is
    in the output with [total_orders = 0], and the rate divides 0 by 0. *)
Lemma C10_total_orders_zero_without_order_id :
  q1_df no_id_orders
  = [ {| category := "Auto"; total_revenue := 25;
         total_orders := Some 0%nat; canceled_orders := Some 0%nat;
         cancellation_rate := NaN |} ]
  /\ ~ (forall x, In x (q1_df no_id_orders) ->
                  exists t, total_orders x = Some t /\ (1 <= t)%nat).
Proof.
  assert (E : q1_df no_id_orders
              = [ {| category := "Auto"; total_revenue := 25;
                     total_orders := Some 0%nat; canceled_orders := Some 0%nat;
                     cancellation_rate := NaN |} ])
    by (vm_compute; reflexivity).
  split; [exact E |].
  intros H. rewrite E in H.
  destruct (H _ (or_introl eq_refl)) as [t [Ht Hpos]].
  cbn in Ht. injection Ht as <-. lia.
Qed.

(** C10 (amended): the [total_orders] cell joined onto every row of [q1_df]
    is never null; it is at least 1 exactly when some row of the category
    carries an order id, which is so whenever the delivered rows of the
    filtered table all carry one; the division of the rate then has a
    non-zero denominator and yields a number. *)
Theorem C10_total_orders_denominator (main : list order_row) (x : q1_row) :
  In x (q1_df main) ->
  exists t,
    total_orders x = Some t
    /\ ((1 <= t)%nat <-> has_order_id main (category x))
    /\ ((forall r, In r main -> order_status r = Some "delivered"%string ->
                   order_id r <> None) ->
        (1 <= t)%nat /\ exists q, cancellation_rate x = Fin q).
Proof.
  intros Hx. pose proof Hx as Hrow.
  apply In_q1_df in Hrow. destruct Hrow as [Hcat Hrow].
  destruct (joined_counts main x Hx) as [c [t [Hc [Ht [Hle [Hrate Hpos]]]]]].
  exists t. split; [exact Ht |]. split; [exact Hpos |].
  intros Hids.
  assert (Hhas : has_order_id main (category x)).
  { apply In_delivered_categories in Hcat.
    destruct Hcat as [r [Hin [Hst Hcr]]].
    exists r. repeat split; try assumption. exact (Hids r Hin Hst). }
  apply Hpos in Hhas. split; [exact Hhas |].
  exists (percent c t). rewrite Hrate. apply fl_percent_pos, Hhas.
Qed.

Lemma C10_total_orders_denominator_witness :
  In toys_row (q1_df toys_table)
  /\ exists t,
      total_orders toys_row = Some t
      /\ ((1 <= t)%nat <-> has_order_id toys_table "Toys")
      /\ ((forall r, In r toys_table ->
                     order_status r = Some "delivered"%string ->
                     order_id r <> None) ->
          (1 <= t)%nat /\ exists q, cancellation_rate toys_row = Fin q).
Proof.
  assert (Hin : In toys_row (q1_df toys_table))
    by (vm_compute; left; reflexivity).
  split; [exact Hin |].
  exact (C10_total_orders_denominator toys_table toys_row Hin).
Defined.

(** *** Ranking *)

Lemma StronglySorted_impl {A : Type} (R R' : A -> A -> Prop) (l : list A) :
  (forall a b, R a b -> R' a b) ->
  StronglySorted R l -> StronglySorted R' l.
Proof.
  intros Himp. induction 1 as [| x l Hs IH Hall]; constructor.
  - exact IH.
  - eapply Forall_impl; [| exact Hall]. intros y. apply Himp.
Qed.

Lemma revenue_geb_total (a b : q1_row) :
  revenue_geb a b = true \/ revenue_geb b a = true.
Proof.
  unfold revenue_geb. rewrite !Qle_bool_iff.
  destruct (Qlt_le_dec (total_revenue a) (total_revenue b)) as [H | H].
  - right. apply Qlt_le_weak, H.
  - left. exact H.
Qed.

Lemma revenue_geb_trans (a b c : q1_row) :
  revenue_geb a b = true -> revenue_geb b c = true -> revenue_geb a c = true.
Proof.
  unfold revenue_geb. rewrite !Qle_bool_iff. intros Hab Hbc.
  eapply Qle_trans; eassumption.
Qed.

(** Revenue descending: every row is followed by rows of no larger revenue. *)
Definition revenue_descending (df : list q1_row) : Prop :=
  StronglySorted (fun a b => (total_revenue b <= total_revenue a)%Q) df.

Lemma sort_values_descending (df : list q1_row) :
  revenue_descending (sort revenue_geb df).
Proof.
  unfold revenue_descending.
  apply (StronglySorted_impl (fun a b => revenue_geb a b = true)).
  - intros a b H. apply Qle_bool_iff, H.
  - apply sort_sorted; [exact revenue_geb_total | exact revenue_geb_trans].
Qed.

Lemma length_q1_df (main : list order_row) :
  length (q1_df main)
  = nunique (map product_category_name_english (delivered main)).
Proof.
  rewrite q1_df_rows, length_map. apply length_group_keys.
Qed.

(** C3: [top_10_df] is sorted by revenue, descending; its length is the
    smaller of 10 and the number of distinct categories of the delivered rows
    of the filtered table; when there are at most 10 such categories it holds
    every row of [q1_df], once each. *)
Theorem C3_top_10_sorted_length (main : list order_row) :
  revenue_descending (top_10_df main)
  /\ length (top_10_df main)
     = Nat.min 10
         (nunique (map product_category_name_english (delivered main)))
  /\ length (map category (q1_df main))
     = nunique (map product_category_name_english (delivered main))
  /\ ((nunique (map product_category_name_english (delivered main)) <= 10)%nat
      -> Permutation (top_10_df main) (q1_df main)).
Proof.
  unfold top_10_df, head. repeat split.
  - apply firstn_sorted, sort_values_descending.
  - rewrite length_firstn, sort_length, length_q1_df. reflexivity.
  - rewrite length_map. apply length_q1_df.
  - intros Hn. rewrite firstn_all2.
    + apply sort_perm.
    + rewrite sort_length, length_q1_df. exact Hn.
Qed.

Definition delivered_line (c : string) (p : Z) : order_row :=
  mk_row (Some c) (Some "delivered"%string) (Some (inject_Z p)) (Some c)
    None (Some 0) None None.

Definition twelve_categories : list order_row :=
  map (fun cp => delivered_line (fst cp) (snd cp))
    [ ("a", 5); ("b", 70); ("c", 20); ("d", 10); ("e", 90); ("f", 40);
      ("g", 30); ("h", 80); ("i", 60); ("j", 50); ("k", 100);
      ("l", 110) ]%string.

Example top_10_of_twelve :
  map category (top_10_df twelve_categories)
  = [ "l"; "k"; "e"; "h"; "b"; "i"; "j"; "f"; "g"; "c" ]%string.
Proof. vm_compute. reflexivity. Qed.

(** *** Date-range filter *)

(** The time of day does not count: every instant of day [d] has date [d]. *)
Lemma dt_date_of_day_time (d time : Z) :
  0 <= time < ns_per_day -> dt_date (d * ns_per_day + time) = d.
Proof.
  intros H. unfold dt_date. unfold ns_per_day in *.
  symmetry. apply (Z.div_unique_pos _ _ d time); lia.
Qed.

Lemma In_main_df (all_df : list order_row) (start_date end_date : date)
  (r : order_row) :
  In r (main_df all_df start_date end_date)
  <-> In r all_df
      /\ exists t, order_purchase_timestamp r = Some t
                   /\ start_date <= dt_date t <= end_date.
Proof.
  unfold main_df, date_ge, date_le. rewrite filter_In.
  destruct (order_purchase_timestamp r) as [t |].
  - rewrite andb_true_iff, !Z.leb_le. split.
    + intros [Hin [H1 H2]]. split; [exact Hin |]. exists t. auto.
    + intros [Hin [t' [Ht' [H1 H2]]]]. injection Ht' as <-. auto.
  - split; [intros [_ H]; discriminate | intros [_ [t [H _]]]; discriminate].
Qed.

(** C6: for every date range, valid ones included, the filtered table
    [main_df] holds exactly the rows of the base table whose purchase
    timestamp is present and whose calendar date lies between the start and
    the end date, both included; the rows keep their order and their number
    of copies; the time of day plays no part; and the filtered table is no
    longer than the base table. *)
Theorem C6_main_df_filter (all_df : list order_row)
  (start_date end_date : date) :
  (forall r,
      In r (main_df all_df start_date end_date)
      <-> In r all_df
          /\ exists t, order_purchase_timestamp r = Some t
                       /\ start_date <= dt_date t <= end_date)
  /\ (forall r, In r all_df -> order_purchase_timestamp r = None ->
                ~ In r (main_df all_df start_date end_date))
  /\ (forall df1 df2,
         all_df = df1 ++ df2 ->
         main_df all_df start_date end_date
         = main_df df1 start_date end_date ++ main_df df2 start_date end_date)
  /\ (forall r,
         main_df [r] start_date end_date = [r]
         \/ main_df [r] start_date end_date = [])
  /\ (forall d time, 0 <= time < ns_per_day ->
                     dt_date (d * ns_per_day + time) = d)
  /\ (length (main_df all_df start_date end_date) <= length all_df)%nat.
Proof.
  split; [apply In_main_df |].
  split.
  { intros r _ Hnull Hin. apply In_main_df in Hin.
    destruct Hin as [_ [t [Ht _]]]. congruence. }
  split.
  { intros df1 df2 ->. unfold main_df. apply filter_app. }
  split.
  { intros r. unfold main_df. cbn [filter].
    destruct (date_ge start_date r && date_le end_date r); auto. }
  split; [exact dt_date_of_day_time |].
  unfold main_df. apply filter_length_le.
Qed.

(** 2022-01-01 is day 18993 of the epoch. *)
Example main_df_january :
  let at_ (d time : Z) :=
    mk_row (Some "o"%string) (Some "delivered"%string) (Some 1%Q) None None
      (Some (d * ns_per_day + time)) None None in
  let null_ts :=
    mk_row (Some "n"%string) (Some "delivered"%string) (Some 1%Q) None None
      None None None in
  main_df
    [ at_ 18992 86399999999999; at_ 18993 0; null_ts;
      at_ 19023 86399999999999; at_ 19024 0 ]
    18993 19023
  = [ at_ 18993 0; at_ 19023 86399999999999 ].
Proof. vm_compute. reflexivity. Qed.

(** *** Delivery delay *)

Lemma td_days_bounds (a e d : Z) :
  d = (a - e) / ns_per_day ->
  ns_per_day * d <= a - e < ns_per_day * (d + 1).
Proof.
  intros ->. unfold ns_per_day.
  pose proof (Z.mul_div_le (a - e) 86400000000000 ltac:(lia)).
  pose proof (Z.mul_succ_div_gt (a - e) 86400000000000 ltac:(lia)).
  lia.
Qed.

(** With the estimate at midnight, as the estimated dates of the dataset
    are, the whole-day difference is the difference of the calendar dates. *)
Lemma td_days_midnight_estimate (a day : Z) :
  td_days (Some a) (Some (day * ns_per_day)) = Some (dt_date a - day).
Proof.
  unfold td_days, dt_date. f_equal.
  replace (a - day * ns_per_day) with (a + (- day) * ns_per_day) by ring.
  rewrite Z.div_add by (unfold ns_per_day; lia). ring.
Qed.

Lemma late_ontime_differ : late_label <> ontime_label.
Proof. discriminate. Qed.

(** C4: [q2_df] holds the rows of the filtered table that are delivered and
    have both the delivered and the estimated date, in order, and no others;
    [delay_days] of such a row is the difference of the two timestamps in
    whole days (rounded down, so it may be negative); the row is labelled
    Late when [delay_days > 0] and On Time when [delay_days <= 0]; a delay of
    0 days is On Time. *)
Theorem C4_delay_buckets (main : list order_row) :
  map order (q2_df main) = filter q2_mask main
  /\ (forall r,
         q2_mask r = true
         <-> order_status r = Some "delivered"%string
             /\ order_delivered_customer_date r <> None
             /\ order_estimated_delivery_date r <> None)
  /\ (forall q,
         In q (q2_df main) ->
         exists a e d,
           order_delivered_customer_date (order q) = Some a
           /\ order_estimated_delivery_date (order q) = Some e
           /\ delay_days q = Some d
           /\ d = (a - e) / ns_per_day
           /\ ns_per_day * d <= a - e < ns_per_day * (d + 1)
           /\ (0 < d -> delivery_status q = late_label)
           /\ (d <= 0 -> delivery_status q = ontime_label))
  /\ status_of_delay (Some 0) = ontime_label
  /\ late_label <> ontime_label.
Proof.
  split.
  { unfold q2_df. rewrite map_map. apply map_id. }
  assert (Hmask : forall r,
             q2_mask r = true
             <-> order_status r = Some "delivered"%string
                 /\ order_delivered_customer_date r <> None
                 /\ order_estimated_delivery_date r <> None).
  { intros r. unfold q2_mask, status_is, notnull.
    rewrite !andb_true_iff.
    destruct (order_status r) as [s |];
      destruct (order_delivered_customer_date r);
      destruct (order_estimated_delivery_date r);
      try (split; [intros [[H1 H2] H3]; discriminate
                  | intros [H1 [H2 H3]]; congruence]).
    destruct (String.eqb_spec s "delivered") as [-> | Hne].
    - split; intros _; repeat split; discriminate.
    - split; [intros [[H _] _]; discriminate
             | intros [H _]; congruence]. }
  split; [exact Hmask |].
  split; [| split; [reflexivity | exact late_ontime_differ]].
  intros q Hq. unfold q2_df in Hq. apply in_map_iff in Hq.
  destruct Hq as [r [<- Hr]]. apply filter_In in Hr. destruct Hr as [_ Hm].
  apply Hmask in Hm. destruct Hm as [_ [Ha He]].
  cbn [order q2_of delay_days delivery_status].
  destruct (order_delivered_customer_date r) as [a |]; [| congruence].
  destruct (order_estimated_delivery_date r) as [e |]; [| congruence].
  exists a, e, ((a - e) / ns_per_day).
  cbn [td_days]. repeat split; try (apply td_days_bounds; reflexivity).
  - intros Hd. unfold status_of_delay, gt0_cell.
    apply Z.ltb_lt in Hd. rewrite Hd. reflexivity.
  - intros Hd. unfold status_of_delay, gt0_cell.
    apply Z.ltb_ge in Hd. rewrite Hd. reflexivity.
Qed.

(** 2022-01-10 is day 19002 of the epoch; the estimate is at midnight. *)
Example delay_two_days_late :
  let r :=
    mk_row (Some "o"%string) (Some "delivered"%string) (Some 1%Q) None None
      (Some 0) (Some (19004 * ns_per_day + 54000000000000))
      (Some (19002 * ns_per_day)) in
  map (fun q => (delay_days q, delivery_status q)) (q2_df [r])
  = [ (Some 2, late_label) ].
Proof. vm_compute. reflexivity. Qed.

Example delay_one_day_early :
  let r :=
    mk_row (Some "o"%string) (Some "delivered"%string) (Some 1%Q) None None
      (Some 0) (Some (19001 * ns_per_day))
      (Some (19002 * ns_per_day)) in
  map (fun q => (delay_days q, delivery_status q)) (q2_df [r])
  = [ (Some (-1), ontime_label) ].
Proof. vm_compute. reflexivity. Qed.

(** *** Mean review score per bucket *)

(** The rows of one delivery status. *)
Definition bucket (label : string) (q2 : list q2_row) : list q2_row :=
  filter (fun q => String.eqb (delivery_status q) label) q2.

(** The mean review score of a bucket, with the default 0 the script takes
    for a bucket that has no row. *)
Definition bucket_mean (label : string) (q2 : list q2_row) : fl :=
  match bucket label q2 with
  | [] => Fin 0
  | _ :: _ => mean_score (bucket label q2)
  end.

Lemma score_summary_get (label : string) (q2 : list q2_row) :
  series_get (score_summary q2) label (Fin 0) = bucket_mean label q2.
Proof.
  unfold score_summary. rewrite series_get_groupby.
  unfold bucket_mean.
  change (group (fun q => Some (delivery_status q)) label q2)
    with (bucket label q2).
  destruct (in_dec string_dec label _) as [Hin | Hno].
  - destruct (bucket label q2) eqn:E; [| reflexivity].
    exfalso. apply In_group_keys, in_map_iff in Hin.
    destruct Hin as [q [Hq Hin]].
    assert (Hb : In q (bucket label q2)).
    { apply filter_In. split; [exact Hin |].
      apply String.eqb_eq. congruence. }
    rewrite E in Hb. exact Hb.
  - destruct (bucket label q2) as [| q g] eqn:E; [reflexivity |].
    exfalso. apply Hno, In_group_keys, in_map_iff.
    assert (Hb : In q (bucket label q2)) by (rewrite E; left; reflexivity).
    apply filter_In in Hb. destruct Hb as [Hin Hq].
    apply String.eqb_eq in Hq. exists q. split; [congruence | exact Hin].
Qed.

Lemma delay_section_events (main : list order_row) :
  delay_section main
  = ([ st_text "header" "2. Analisis Kepuasan Pelanggan";
       st_text "subheader"
         "Pengaruh Keterlambatan Pengiriman terhadap Skor Ulasan";
       st_pyplot_fig2 (q2_df main);
       st_text "info" "Key Takeaways";
       st_metric "Skor: Tepat Waktu" (fmt2 (ontime_score (q2_df main))) None;
       st_metric "Skor: Terlambat" (fmt2 (late_score (q2_df main)))
         (Some (fmt2 (fl_sub (late_score (q2_df main))
                        (ontime_score (q2_df main)))));
       st_write (narrative (late_score (q2_df main))
                   (ontime_score (q2_df main)));
       st_text "markdown" "---";
       st_text "caption" "Dashboard Proyek Analisis Data - Dicoding" ],
      Value tt).
Proof. reflexivity. Qed.

(** The review scores that are present in a list of rows of the delay
    table, and their sum. *)
Fixpoint present_scores (g : list q2_row) : list Q :=
  match g with
  | [] => []
  | q :: g' =>
      match review_score (order q) with
      | Some x => x :: present_scores g'
      | None => present_scores g'
      end
  end.

Definition total (xs : list Q) : Q := fold_right Qplus 0%Q xs.

(** What the card of a bucket is to show: 0 for a bucket without rows; for
    a bucket with rows, NaN when none has a review score, else the float64
    quotient of the sum of the scores present by their number (the sum of
    whole-number scores, as review scores are, is exact in float64). *)
Definition reported_mean (g : list q2_row) : fl :=
  match g with
  | [] => Fin 0
  | _ :: _ =>
      match present_scores g with
      | [] => NaN
      | x :: xs =>
          b64 (total (x :: xs) / inject_Z (Z.of_nat (length (x :: xs))))
      end
  end.

Lemma dropna_scores (g : list q2_row) :
  dropna (map (fun q => review_score (order q)) g) = present_scores g.
Proof.
  induction g as [| q g IH]; cbn [map dropna present_scores].
  - reflexivity.
  - destruct (review_score (order q)); rewrite IH; reflexivity.
Qed.

Lemma sum_scores (g : list q2_row) :
  sum_skipna (map (fun q => review_score (order q)) g)
  = total (present_scores g).
Proof.
  induction g as [| q g IH]; cbn [map sum_skipna present_scores].
  - reflexivity.
  - destruct (review_score (order q)); cbn [total fold_right]; rewrite IH;
      reflexivity.
Qed.

Lemma mean_score_scores (g : list q2_row) :
  mean_score g
  = match present_scores g with
    | [] => NaN
    | x :: xs =>
        b64 (total (x :: xs) / inject_Z (Z.of_nat (length (x :: xs))))
    end.
Proof.
  unfold mean_score, mean_skipna. rewrite dropna_scores, sum_scores.
  destruct (present_scores g); reflexivity.
Qed.

Lemma bucket_mean_reported (label : string) (q2 : list q2_row) :
  bucket_mean label q2 = reported_mean (bucket label q2).
Proof.
  unfold bucket_mean, reported_mean.
  destruct (bucket label q2) as [| q g]; [reflexivity |].
  apply mean_score_scores.
Qed.

(** A delivered order, on time or [late_by] days late, with its score. *)
Definition scored_line (late_by : Z) (score : option Q) : order_row :=
  mk_row (Some "o"%string) (Some "delivered"%string) (Some 1%Q) None score
    (Some 0) (Some (late_by * ns_per_day)) (Some 0).

(** Two late orders of scores 1 and 2, three on time of scores 5, 4 and
    none. *)
Definition five_deliveries : list order_row :=
  [ scored_line 3 (Some 1%Q); scored_line 0 (Some 5%Q);
    scored_line 1 (Some 2%Q); scored_line (-2) (Some 4%Q);
    scored_line (-1) None ].

(** Forty orders on time: one of score 5 and 39 of score 4, of mean
    161 / 40 = 4.025. *)
Definition forty_on_time : list order_row :=
  scored_line 0 (Some 5%Q) :: repeat (scored_line 0 (Some 4%Q)) 39.

(** C5: the delay section shows the mean review score of the on-time
    bucket and that of the late bucket: for a bucket with rows the float64
    quotient of the sum of its review scores by their number (NaN when it
    has no score), and 0 for a bucket without rows.  Its narrative shows the
    signed difference, on-time mean minus late mean, as a float64
    difference; the delta of the late metric is the opposite difference.
    On five deliveries with late scores 1, 2 and on-time scores 5, 4 the
    cards read 4.50 and 1.50 and the narrative 3.00; a mean of 4.025 reads
    4.03. *)
Theorem C5_delay_report (main : list order_row) :
  let q2 := q2_df main in
  let late := late_score q2 in
  let ontime := ontime_score q2 in
  late = reported_mean (bucket late_label q2)
  /\ ontime = reported_mean (bucket ontime_label q2)
  /\ In (st_metric "Skor: Tepat Waktu" (fmt2 ontime) None)
        (fst (delay_section main))
  /\ In (st_metric "Skor: Terlambat" (fmt2 late)
           (Some (fmt2 (fl_sub late ontime))))
        (fst (delay_section main))
  /\ In (st_write (narrative late ontime)) (fst (delay_section main))
  /\ (exists before after,
         narrative late ontime
         = (before ++ fmt2 (fl_sub ontime late) ++ after)%string)
  /\ (forall a b, late = Fin a -> ontime = Fin b ->
                  fl_sub ontime late = b64 (b - a)
                  /\ fl_sub late ontime = b64 (a - b))
  /\ (late_score (q2_df five_deliveries) = Fin (3 # 2)
      /\ ontime_score (q2_df five_deliveries) = Fin (9 # 2)
      /\ In (st_metric "Skor: Tepat Waktu" "4.50" None)
            (fst (delay_section five_deliveries))
      /\ In (st_metric "Skor: Terlambat" "1.50" (Some "-3.00"%string))
            (fst (delay_section five_deliveries))
      /\ fmt2 (fl_sub (ontime_score (q2_df five_deliveries))
                 (late_score (q2_df five_deliveries)))
         = "3.00"%string)
  /\ (In (st_metric "Skor: Tepat Waktu" "4.03" None)
         (fst (delay_section forty_on_time))
      /\ In (st_metric "Skor: Terlambat" "0.00" (Some "-4.03"%string))
            (fst (delay_section forty_on_time))).
Proof.
  cbv zeta. rewrite delay_section_events. cbn [fst].
  split; [unfold late_score; rewrite score_summary_get;
          apply bucket_mean_reported |].
  split; [unfold ontime_score; rewrite score_summary_get;
          apply bucket_mean_reported |].
  split; [cbn [In]; tauto |].
  split; [cbn [In]; tauto |].
  split; [cbn [In]; tauto |].
  split.
  { exists
      (nl ++ "    Terdapat penurunan skor yang signifikan sebesar **")%string.
    unfold narrative. eexists. reflexivity. }
  split.
  { intros a b -> ->. split; reflexivity. }
  split.
  - vm_compute. repeat split; auto 10.
  - vm_compute. split; auto 10.
Qed.

(** *** The empty filtered table *)

Lemma kpi_section_events (main : list order_row) :
  kpi_section main
  = ([ st_text "markdown" "### Ringkasan Performa";
       st_metric "Total Revenue"
         (format_fixed 0 true (Fin (KPI.total_revenue main))) None;
       st_metric "Total Pesanan" (format_count (KPI.total_order main)) None;
       st_metric "Rata-rata Skor Review"
         (fmt2 (KPI.avg_score main) ++ " / 5.0") None;
       st_text "markdown" "---" ],
      Value tt).
Proof. reflexivity. Qed.

Lemma dropna_all_null {A : Type} (col : list (option A)) :
  (forall c, In c col -> c = None) -> dropna col = [].
Proof.
  induction col as [| [x |] col IH]; intros H; cbn [dropna].
  - reflexivity.
  - discriminate (H (Some x) (or_introl eq_refl)).
  - apply IH. intros c Hc. apply H. right. exact Hc.
Qed.

(** No score at all: the mean is NaN. *)
Lemma avg_score_all_null (main : list order_row) :
  (forall r, In r main -> review_score r = None) ->
  KPI.avg_score main = NaN.
Proof.
  intros H. unfold KPI.avg_score, mean_skipna.
  rewrite dropna_all_null; [reflexivity |].
  intros c Hc. apply in_map_iff in Hc. destruct Hc as [r [<- Hr]].
  apply H, Hr.
Qed.

(** *** Loading, validation and reruns *)

(** The upper limit the script computes for the rate axis of figure 1. *)
Definition rate_axis_limit (main : list order_row) : fl :=
  fl_mul (series_max (map cancellation_rate (top_10_df main)))
    (Fin (15 # 10)).

(** The elements of the category section up to the call of [set_ylim]. *)
Definition category_head (main : list order_row) : list event :=
  [ st_text "header" "1. Analisis Kategori Produk";
    st_text "subheader" "Revenue Tertinggi vs Tingkat Pembatalan";
    ax2_set_ylim (Fin 0) (rate_axis_limit main) ].

Lemma category_section_finite (main : list order_row) :
  is_finite (rate_axis_limit main) = true ->
  category_section main
  = (category_head main
     ++ [ st_pyplot_fig1 (top_10_df main);
          st_text "expander" "Lihat Penjelasan Insight";
          st_text "markdown" "---" ],
     Value tt).
Proof.
  intros H. unfold category_section. cbv zeta.
  fold (rate_axis_limit main). rewrite H. reflexivity.
Qed.

(** [set_ylim] refuses a limit that is not a finite number: the section
    ends there, with the exception. *)
Lemma category_section_raises (main : list order_row) :
  is_finite (rate_axis_limit main) = false ->
  category_section main = (category_head main, Uncaught).
Proof.
  intros H. unfold category_section. cbv zeta.
  fold (rate_axis_limit main). rewrite H. reflexivity.
Qed.

Definition min_date (all_df : list order_row) : option date :=
  option_map dt_date (min_skipna (map order_purchase_timestamp all_df)).

Definition max_date (all_df : list order_row) : option date :=
  option_map dt_date (max_skipna (map order_purchase_timestamp all_df)).

(** The elements of the sidebar up to the validation. *)
Definition sidebar_inputs (all_df : list order_row)
  (start_date end_date : date) : list event :=
  [ st_text "header" "Filter Waktu";
    st_date_input "Mulai Dari" (min_date all_df) (max_date all_df) start_date;
    st_date_input "Sampai" (min_date all_df) (max_date all_df) end_date ].

Lemma sidebar_invalid (all_df : list order_row) (lo hi : date)
  (start_date end_date : date) :
  min_date all_df = Some lo -> max_date all_df = Some hi ->
  end_date < start_date ->
  sidebar all_df start_date end_date
  = (sidebar_inputs all_df start_date end_date
     ++ [st_error invalid_range_message], Halt).
Proof.
  intros Hlo Hhi H. apply Z.ltb_lt in H.
  unfold sidebar, sidebar_inputs. cbv zeta.
  fold (min_date all_df). fold (max_date all_df). rewrite Hlo, Hhi.
  cbn [bind emit app]. rewrite H. reflexivity.
Qed.

Lemma sidebar_valid (all_df : list order_row) (lo hi : date)
  (start_date end_date : date) :
  min_date all_df = Some lo -> max_date all_df = Some hi ->
  start_date <= end_date ->
  sidebar all_df start_date end_date
  = (sidebar_inputs all_df start_date end_date
     ++ [st_caption_range (Some lo) (Some hi)], Value tt).
Proof.
  intros Hlo Hhi H. apply Z.ltb_ge in H.
  unfold sidebar, sidebar_inputs. cbv zeta.
  fold (min_date all_df). fold (max_date all_df). rewrite Hlo, Hhi.
  cbn [bind emit app]. rewrite H. reflexivity.
Qed.

Lemma max_date_of_min (all_df : list order_row) (lo : date) :
  min_date all_df = Some lo -> max_date all_df <> None.
Proof.
  unfold min_date, min_skipna, max_date, max_skipna.
  match goal with
  | |- context [@dropna ?A ?c] => destruct (@dropna A c)
  end; discriminate.
Qed.

(** A table without any purchase timestamp: the first date widget raises. *)
Lemma sidebar_no_timestamp (all_df : list order_row)
  (start_date end_date : date) :
  min_date all_df = None ->
  sidebar all_df start_date end_date
  = ([st_text "header" "Filter Waktu"], Uncaught).
Proof.
  intros Hlo. unfold sidebar. cbv zeta.
  fold (min_date all_df). fold (max_date all_df). rewrite Hlo. reflexivity.
Qed.

(** The three sections below the sidebar. *)
Definition sections (main : list order_row) : script unit :=
  kpi_section main ;; category_section main ;; delay_section main.

Lemma sections_finite (main : list order_row) :
  is_finite (rate_axis_limit main) = true ->
  sections main
  = (fst (kpi_section main) ++ fst (category_section main)
     ++ fst (delay_section main),
     Value tt).
Proof.
  intros H. unfold sections.
  rewrite kpi_section_events, (category_section_finite main H),
    delay_section_events.
  reflexivity.
Qed.

Lemma sections_raise (main : list order_row) :
  is_finite (rate_axis_limit main) = false ->
  sections main
  = (fst (kpi_section main) ++ category_head main, Uncaught).
Proof.
  intros H. unfold sections.
  rewrite kpi_section_events, (category_section_raises main H).
  reflexivity.
Qed.

Lemma render_invalid (all_df : list order_row) (lo hi : date)
  (start_date end_date : date) :
  min_date all_df = Some lo -> max_date all_df = Some hi ->
  end_date < start_date ->
  render all_df start_date end_date
  = (sidebar_inputs all_df start_date end_date
     ++ [st_error invalid_range_message], Halt).
Proof.
  intros Hlo Hhi H. unfold render.
  rewrite (sidebar_invalid _ _ _ _ _ Hlo Hhi H). reflexivity.
Qed.

Lemma render_valid (all_df : list order_row) (lo hi : date)
  (start_date end_date : date) :
  min_date all_df = Some lo -> max_date all_df = Some hi ->
  start_date <= end_date ->
  render all_df start_date end_date
  = ((sidebar_inputs all_df start_date end_date
      ++ [st_caption_range (Some lo) (Some hi)])
     ++ fst (sections (main_df all_df start_date end_date)),
     snd (sections (main_df all_df start_date end_date))).
Proof.
  intros Hlo Hhi H.
  change (render all_df start_date end_date)
    with (bind (sidebar all_df start_date end_date)
            (fun _ => sections (main_df all_df start_date end_date))).
  rewrite (sidebar_valid _ _ _ _ _ Hlo Hhi H). unfold bind.
  destruct (sections (main_df all_df start_date end_date)) as [ev o].
  reflexivity.
Qed.

Lemma render_no_timestamp (all_df : list order_row)
  (start_date end_date : date) :
  min_date all_df = None ->
  render all_df start_date end_date
  = ([st_text "header" "Filter Waktu"], Uncaught).
Proof.
  intros Hlo. unfold render.
  rewrite (sidebar_no_timestamp _ _ _ Hlo). reflexivity.
Qed.

(** *** The run on an empty filtered table *)

(** C7: when no row matches a valid date range, every aggregate has a
    value: the total revenue is 0, the number of orders is 0, the average
    review score is NaN and is shown as "nan", which is not how 0 is shown,
    the category table and its top-10 are empty, and so is the delay table,
    whose two bucket means take the default 0; the KPI section runs to its
    end.  The run does not: the limit computed for the rate axis of the
    first figure is the maximum of an empty column, NaN, [set_ylim] raises
    on it, and the run ends with that exception, before the first figure
    and the whole delay section. *)
Theorem C7_empty_filtered_set (all_df : list order_row) (lo hi : date)
  (start_date end_date : date) :
  min_date all_df = Some lo ->
  max_date all_df = Some hi ->
  start_date <= end_date ->
  main_df all_df start_date end_date = [] ->
  let main := main_df all_df start_date end_date in
  KPI.total_revenue main = 0%Q
  /\ KPI.total_order main = 0%nat
  /\ KPI.avg_score main = NaN
  /\ q1_df main = []
  /\ top_10_df main = []
  /\ q2_df main = []
  /\ late_score (q2_df main) = Fin 0
  /\ ontime_score (q2_df main) = Fin 0
  /\ kpi_section main
     = ([ st_text "markdown" "### Ringkasan Performa";
          st_metric "Total Revenue" "0" None;
          st_metric "Total Pesanan" "0" None;
          st_metric "Rata-rata Skor Review" "nan / 5.0" None;
          st_text "markdown" "---" ],
         Value tt)
  /\ fmt2 NaN = "nan"%string
  /\ fmt2 NaN <> fmt2 (Fin 0)
  /\ rate_axis_limit main = NaN
  /\ render all_df start_date end_date
     = (sidebar_inputs all_df start_date end_date
        ++ [ st_caption_range (Some lo) (Some hi);
             st_text "markdown" "### Ringkasan Performa";
             st_metric "Total Revenue" "0" None;
             st_metric "Total Pesanan" "0" None;
             st_metric "Rata-rata Skor Review" "nan / 5.0" None;
             st_text "markdown" "---";
             st_text "header" "1. Analisis Kategori Produk";
             st_text "subheader" "Revenue Tertinggi vs Tingkat Pembatalan";
             ax2_set_ylim (Fin 0) NaN ],
        Uncaught).
Proof.
  intros Hlo Hhi Hvalid Hempty. cbv zeta.
  rewrite (render_valid all_df lo hi _ _ Hlo Hhi Hvalid).
  rewrite Hempty.
  repeat split; try reflexivity.
  vm_compute. discriminate.
Qed.

(** Purchases on 2022-01-01 and on 2022-01-10 (days 18993 and 19002), and
    none between. *)
Definition gap_table : list order_row :=
  [ mk_row (Some "o1"%string) (Some "delivered"%string) (Some 10%Q)
      (Some "Toys"%string) (Some 5%Q) (Some (18993 * ns_per_day))
      (Some (18995 * ns_per_day)) (Some (19000 * ns_per_day));
    mk_row (Some "o2"%string) (Some "canceled"%string) (Some 20%Q)
      (Some "Auto"%string) None (Some (19002 * ns_per_day)) None
      (Some (19010 * ns_per_day)) ].

Lemma C7_empty_filtered_set_witness :
  min_date gap_table = Some 18993
  /\ max_date gap_table = Some 19002
  /\ 18995 <= 18995
  /\ main_df gap_table 18995 18995 = []
  /\ snd (render gap_table 18995 18995) = Uncaught.
Proof.
  assert (Hlo : min_date gap_table = Some 18993) by reflexivity.
  assert (Hhi : max_date gap_table = Some 19002) by reflexivity.
  assert (Hvalid : 18995 <= 18995) by lia.
  assert (Hempty : main_df gap_table 18995 18995 = []) by reflexivity.
  repeat (split; [assumption |]).
  pose proof (C7_empty_filtered_set gap_table 18993 19002 18995 18995
                Hlo Hhi Hvalid Hempty) as H.
  cbv zeta in H.
  destruct H as (_ & _ & _ & _ & _ & _ & _ & _ & _ & _ & _ & _ & Hrender).
  rewrite Hrender. reflexivity.
Defined.

Section ScriptProps.
Context {fmt : Type}
  (guess_format : list (option string) -> fmt)
  (parse : fmt -> string -> option timestamp).

(** A date cell after the lenient parse: the parsed timestamp, or NaT for
    a null cell and for a text that does not parse. *)
Definition coerce (f : fmt) (c : option string) : option timestamp :=
  match c with
  | Some s => parse f s
  | None => None
  end.

Definition column_format (col : csv_row -> option string)
  (df : list csv_row) : fmt :=
  guess_format (map col df).

(** The loaded table: the rows of the file, their three date cells parsed
    leniently, every other cell as read. *)
Definition parse_row (df : list csv_row) (r : csv_row) : order_row :=
  mk_row (order_id r) (order_status r) (price r)
    (product_category_name_english r) (review_score r)
    (coerce (column_format order_purchase_timestamp df)
       (order_purchase_timestamp r))
    (coerce (column_format order_delivered_customer_date df)
       (order_delivered_customer_date r))
    (coerce (column_format order_estimated_delivery_date df)
       (order_estimated_delivery_date r)).

Definition parsed (df : list csv_row) : list order_row :=
  map (parse_row df) df.

Lemma convert_all_coerce (f : fmt) (col : list (option string)) :
  convert_all parse errors_coerce f col = Some (map (coerce f) col).
Proof.
  induction col as [| c col IH]; cbn [convert_all map].
  - reflexivity.
  - rewrite IH. destruct c as [s |]; cbn [convert_cell coerce].
    + destruct (parse f s); reflexivity.
    + reflexivity.
Qed.

(** Under [errors = 'raise'] one malformed cell fails the conversion. *)
Lemma convert_all_raise_malformed (f : fmt) (col : list (option string))
  (s : string) :
  In (Some s) col -> parse f s = None ->
  convert_all parse errors_raise f col = None.
Proof.
  intros Hin Hbad. induction col as [| c col IH]; [contradiction |].
  cbn [convert_all]. destruct Hin as [-> | Hin].
  - cbn [convert_cell]. rewrite Hbad. reflexivity.
  - rewrite (IH Hin). destruct (convert_cell parse errors_raise f c);
      reflexivity.
Qed.

Lemma with_dates_map (g1 g2 g3 : csv_row -> option timestamp)
  (df : list csv_row) :
  with_dates df (map g1 df) (map g2 df) (map g3 df)
  = map (fun r =>
           mk_row (order_id r) (order_status r) (price r)
             (product_category_name_english r) (review_score r)
             (g1 r) (g2 r) (g3 r))
      df.
Proof.
  induction df as [| r df IH]; cbn [with_dates map].
  - reflexivity.
  - rewrite IH. reflexivity.
Qed.

Lemma load_data_found (df : list csv_row) :
  load_data guess_format parse (Some df) = ([], Value (Some (parsed df))).
Proof.
  unfold load_data, date_column, to_datetime.
  rewrite !convert_all_coerce, !map_map.
  unfold ret. rewrite with_dates_map. reflexivity.
Qed.

Lemma load_data_missing :
  load_data guess_format parse None
  = ([st_error not_found_message], Value None).
Proof. reflexivity. Qed.

(** The value and elements of [load_data], which never raises. *)
Definition loaded (file : option (list csv_row))
  : list event * option (list order_row) :=
  match file with
  | None => ([st_error not_found_message], None)
  | Some df => ([], Some (parsed df))
  end.

Lemma load_data_loaded (file : option (list csv_row)) :
  load_data guess_format parse file
  = (fst (loaded file), Value (snd (loaded file))).
Proof.
  destruct file as [df |]; [apply load_data_found | apply load_data_missing].
Qed.

(** The memo is either empty or holds what [load_data] returns. *)
Definition cache_of (file : option (list csv_row)) (c : cache) : Prop :=
  c = None \/ c = Some (loaded file).

Lemma run_cached (file : option (list csv_row)) (c : cache)
  (start_date end_date : date) :
  cache_of file c ->
  fst (run guess_format parse c file start_date end_date)
  = fst (run guess_format parse None file start_date end_date)
  /\ cache_of file
       (snd (run guess_format parse c file start_date end_date)).
Proof.
  unfold cache_of. intros [-> | ->].
  - split; [reflexivity |].
    unfold run, cached_load_data. rewrite load_data_loaded.
    right. destruct (loaded file). reflexivity.
  - unfold run, cached_load_data. rewrite load_data_loaded.
    destruct (loaded file) as [ev v]. cbn [fst snd].
    split; [reflexivity | right; reflexivity].
Qed.

(** Every run of a session is what a run of a fresh session would be. *)
Lemma session_reruns (file : option (list csv_row)) (c : cache)
  (inputs : list (date * date)) :
  cache_of file c ->
  session guess_format parse c file inputs
  = map (fun se => fst (run guess_format parse None file (fst se) (snd se)))
      inputs.
Proof.
  revert c. induction inputs as [| [s e] inputs IH]; intros c Hc.
  - reflexivity.
  - cbn [session map fst snd].
    destruct (run_cached file c s e Hc) as [Hrun Hc'].
    destruct (run guess_format parse c file s e) as [r c'].
    cbn [fst snd] in Hrun, Hc'. rewrite Hrun, (IH c' Hc'). reflexivity.
Qed.

Definition header_events : list event := fst header.

Lemma run_found (df : list csv_row) (start_date end_date : date) :
  fst (run guess_format parse None (Some df) start_date end_date)
  = (header_events ++ fst (render (parsed df) start_date end_date),
     snd (render (parsed df) start_date end_date)).
Proof.
  unfold run, cached_load_data. rewrite load_data_found. cbn [fst].
  destruct (render (parsed df) start_date end_date) as [ev o] eqn:E.
  unfold bind, header_events, header, emit. cbn. rewrite E.
  destruct o; reflexivity.
Qed.

Lemma run_missing (start_date end_date : date) :
  fst (run guess_format parse None None start_date end_date)
  = (header_events ++ [st_error not_found_message], Halt).
Proof. reflexivity. Qed.

Lemma sidebar_inputs_no_aggregate (all_df : list order_row)
  (start_date end_date : date) (tail : list event) :
  Forall (fun ev => shows_aggregate ev = false) tail ->
  Forall (fun ev => shows_aggregate ev = false)
    (header_events ++ sidebar_inputs all_df start_date end_date ++ tail).
Proof.
  intros H. unfold header_events, sidebar_inputs. cbn.
  repeat (constructor; [reflexivity |]). exact H.
Qed.

Lemma header_no_aggregate (tail : list event) :
  Forall (fun ev => shows_aggregate ev = false) tail ->
  Forall (fun ev => shows_aggregate ev = false) (header_events ++ tail).
Proof.
  intros H. unfold header_events. cbn.
  repeat (constructor; [reflexivity |]). exact H.
Qed.

(** A run with the start date after the end date never ends normally and
    shows no aggregate, whatever the file. *)
Lemma run_invalid_any_file (file : option (list csv_row))
  (start_date end_date : date) :
  end_date < start_date ->
  snd (fst (run guess_format parse None file start_date end_date))
  <> Value tt
  /\ Forall (fun ev => shows_aggregate ev = false)
       (fst (fst (run guess_format parse None file start_date end_date))).
Proof.
  intros Hbad. destruct file as [df |].
  - rewrite run_found. cbn [fst snd].
    destruct (min_date (parsed df)) as [lo |] eqn:Hlo.
    + destruct (max_date (parsed df)) as [hi |] eqn:Hhi.
      * rewrite (render_invalid _ lo hi _ _ Hlo Hhi Hbad). cbn [fst snd].
        split; [discriminate |].
        apply sidebar_inputs_no_aggregate. repeat constructor.
      * exfalso. exact (max_date_of_min _ _ Hlo Hhi).
    + rewrite (render_no_timestamp _ _ _ Hlo). cbn [fst snd].
      split; [discriminate |].
      apply header_no_aggregate. repeat constructor.
  - rewrite run_missing. cbn [fst snd]. split; [discriminate |].
    apply header_no_aggregate. repeat constructor.
Qed.

(** C8: when the start date is after the end date, a run on a loaded table
    shows the two date inputs and then the validation error, and ends at
    [st.stop()]: the error is its last element, no element showing a
    filtered or aggregated value is emitted, and the run ends neither
    normally nor with an exception.  The session goes on: every later run is
    what it would be in a fresh session, and a later run with a valid range
    passes the validation and shows the KPI cards of that range. *)
Theorem C8_invalid_range_halts (df : list csv_row) (lo hi : date)
  (start_date end_date : date) :
  min_date (parsed df) = Some lo ->
  max_date (parsed df) = Some hi ->
  end_date < start_date ->
  let fresh s e := fst (run guess_format parse None (Some df) s e) in
  fresh start_date end_date
  = (header_events
     ++ sidebar_inputs (parsed df) start_date end_date
     ++ [st_error invalid_range_message],
     Halt)
  /\ Forall (fun ev => shows_aggregate ev = false)
       (fst (fresh start_date end_date))
  /\ (forall file,
         snd (fst (run guess_format parse None file start_date end_date))
         <> Value tt
         /\ Forall (fun ev => shows_aggregate ev = false)
              (fst (fst (run guess_format parse None file
                           start_date end_date))))
  /\ (forall inputs,
         session guess_format parse None (Some df)
           ((start_date, end_date) :: inputs)
         = fresh start_date end_date
           :: map (fun se => fresh (fst se) (snd se)) inputs)
  /\ (forall s e,
         s <= e ->
         nth_error
           (session guess_format parse None (Some df)
              [(start_date, end_date); (s, e)]) 1
         = Some (fresh s e)
         /\ fresh s e
            = (header_events
               ++ (sidebar_inputs (parsed df) s e
                   ++ [st_caption_range (Some lo) (Some hi)])
               ++ fst (sections (main_df (parsed df) s e)),
               snd (sections (main_df (parsed df) s e)))
         /\ In (st_metric "Total Pesanan"
                  (format_count (KPI.total_order (main_df (parsed df) s e)))
                  None)
               (fst (sections (main_df (parsed df) s e)))
         /\ (is_finite (rate_axis_limit (main_df (parsed df) s e)) = true ->
             snd (fresh s e) = Value tt)).
Proof.
  intros Hlo Hhi Hbad. cbv zeta.
  assert (Hsession : forall inputs,
             session guess_format parse None (Some df) inputs
             = map (fun se =>
                      fst (run guess_format parse None (Some df)
                             (fst se) (snd se)))
                 inputs).
  { intros inputs. apply session_reruns. left. reflexivity. }
  assert (Hrun : fst (run guess_format parse None (Some df)
                        start_date end_date)
                 = (header_events
                    ++ sidebar_inputs (parsed df) start_date end_date
                    ++ [st_error invalid_range_message],
                    Halt)).
  { rewrite run_found, (render_invalid _ lo hi _ _ Hlo Hhi Hbad).
    reflexivity. }
  split; [exact Hrun |].
  split.
  { rewrite Hrun. cbn [fst].
    apply sidebar_inputs_no_aggregate. repeat constructor. }
  split; [intros file; apply run_invalid_any_file, Hbad |].
  split.
  { intros inputs. rewrite Hsession. reflexivity. }
  intros s e Hok. rewrite Hsession. cbn [map fst snd nth_error].
  split; [reflexivity |].
  assert (Hfresh : fst (run guess_format parse None (Some df) s e)
                   = (header_events
                      ++ (sidebar_inputs (parsed df) s e
                          ++ [st_caption_range (Some lo) (Some hi)])
                      ++ fst (sections (main_df (parsed df) s e)),
                      snd (sections (main_df (parsed df) s e)))).
  { rewrite run_found, (render_valid _ lo hi _ _ Hlo Hhi Hok).
    reflexivity. }
  split; [exact Hfresh |].
  split.
  - destruct (is_finite (rate_axis_limit (main_df (parsed df) s e))) eqn:Hf.
    + rewrite (sections_finite _ Hf), kpi_section_events. cbn [fst].
      apply in_or_app. left. cbn [In]. tauto.
    + rewrite (sections_raise _ Hf), kpi_section_events. cbn [fst].
      apply in_or_app. left. cbn [In]. tauto.
  - intros Hf. rewrite Hfresh, (sections_finite _ Hf). reflexivity.
Qed.

(** C9: when all_data.csv is missing, [load_data] returns no table and
    shows the data-not-found error, and the script stops right after it,
    before the sidebar and every aggregate.  When the file exists the load
    always returns a table, with one row per line of the file: a date cell
    whose text does not parse becomes null, in each of the three date
    columns, where the strict conversion would have raised. *)
Theorem C9_load_data :
  load_data guess_format parse None
  = ([st_error not_found_message], Value None)
  /\ (forall start_date end_date,
         fst (run guess_format parse None None start_date end_date)
         = (header_events ++ [st_error not_found_message], Halt))
  /\ Forall (fun ev => shows_aggregate ev = false)
        (header_events ++ [st_error not_found_message])
  /\ (forall df,
         load_data guess_format parse (Some df)
         = ([], Value (Some (parsed df)))
         /\ length (parsed df) = length df
         /\ forall i,
             nth_error (parsed df) i
             = option_map (parse_row df) (nth_error df i))
  /\ (forall f s, parse f s = None -> coerce f (Some s) = None)
  /\ (forall col s,
         In (Some s) col -> parse (guess_format col) s = None ->
         to_datetime guess_format parse errors_coerce col
         = Some (map (coerce (guess_format col)) col)
         /\ to_datetime guess_format parse errors_raise col = None).
Proof.
  split; [reflexivity |].
  split; [intros; apply run_missing |].
  split; [unfold header_events; cbn; repeat constructor |].
  split.
  { intros df. split; [apply load_data_found |].
    unfold parsed. split; [apply length_map |].
    intros i. apply nth_error_map. }
  split.
  { intros f s H. exact H. }
  intros col s Hin Hbad. unfold to_datetime. split.
  - apply convert_all_coerce.
  - exact (convert_all_raise_malformed _ col s Hin Hbad).
Qed.
End ScriptProps.

(** A file with purchases on 2022-01-01 and 2022-01-10, and a parser that
    reads these two dates. *)
Definition two_dates (f : unit) (s : string) : option timestamp :=
  if String.eqb s "2022-01-01" then Some (18993 * ns_per_day)
  else if String.eqb s "2022-01-10" then Some (19002 * ns_per_day)
  else None.

Definition two_day_file : list csv_row :=
  [ mk_row (Some "o1"%string) (Some "delivered"%string) (Some 10%Q)
      (Some "Toys"%string) (Some 5%Q) (Some "2022-01-01"%string)
      (Some "2022-01-10"%string) (Some "2022-01-10"%string);
    mk_row (Some "o2"%string) (Some "canceled"%string) (Some 20%Q)
      (Some "Toys"%string) None (Some "2022-01-10"%string) None
      (Some "2022-01-10"%string) ].

Lemma C8_invalid_range_halts_witness :
  min_date (parsed (fun _ => tt) two_dates two_day_file) = Some 18993
  /\ max_date (parsed (fun _ => tt) two_dates two_day_file) = Some 19002
  /\ 18993 < 19002
  /\ fst (run (fun _ => tt) two_dates None (Some two_day_file) 19002 18993)
     = (header_events
        ++ sidebar_inputs (parsed (fun _ => tt) two_dates two_day_file)
             19002 18993
        ++ [st_error invalid_range_message],
        Halt).
Proof.
  assert (Hlo : min_date (parsed (fun _ => tt) two_dates two_day_file)
                = Some 18993) by reflexivity.
  assert (Hhi : max_date (parsed (fun _ => tt) two_dates two_day_file)
                = Some 19002) by reflexivity.
  assert (Hbad : 18993 < 19002) by reflexivity.
  repeat (split; [assumption |]).
  exact (proj1 (C8_invalid_range_halts (fun _ => tt) two_dates two_day_file
                  18993 19002 19002 18993 Hlo Hhi Hbad)).
Defined.

(** After the refused range, the valid range of the two dates renders. *)
Example session_recovers :
  map snd
    (session (fun _ => tt) two_dates None (Some two_day_file)
       [ (19002, 18993); (18993, 19002) ])
  = [ Halt; Value tt ].
Proof. vm_compute. reflexivity. Qed.

(** A file with a malformed delivered date: the load goes through and the
    cell is null. *)
Example load_data_malformed_date :
  let parse (f : unit) (s : string) :=
    if String.eqb s "2022-01-10" then Some (19002 * ns_per_day) else None in
  let line :=
    mk_row (Some "o1"%string) (Some "delivered"%string) (Some 10%Q)
      (Some "Toys"%string) None (Some "2022-01-10"%string)
      (Some "not a date"%string) (Some "2022-01-10"%string) in
  load_data (fun _ => tt) parse (Some [line])
  = ([], Value (Some
       [ mk_row (Some "o1"%string) (Some "delivered"%string) (Some 10%Q)
           (Some "Toys"%string) None (Some (19002 * ns_per_day))
           None (Some (19002 * ns_per_day)) ])).
Proof. vm_compute. reflexivity. Qed.

End DashboardProps.

(** ** Further properties of the aggregates *)

Module DashboardExtras.
Import Frame FrameFacts Dashboard DashboardProps.

(** *** Counting orders *)

(** [nunique] sees a column as the set of its non-null values. *)
Lemma nunique_same_values (col col' : list (option string)) :
  (forall s, In (Some s) col <-> In (Some s) col') ->
  nunique col = nunique col'.
Proof.
  intros H. unfold nunique.
  assert (Hincl : forall c c' : list (option string),
             (forall s, In (Some s) c -> In (Some s) c') ->
             (length (nodup string_dec (dropna c))
              <= length (nodup string_dec (dropna c')))%nat).
  { intros c c' Hc. apply NoDup_incl_length; [apply NoDup_nodup |].
    intros s Hs. apply nodup_In in Hs. apply nodup_In.
    apply In_dropna. apply Hc. apply In_dropna. exact Hs. }
  apply Nat.le_antisymm; apply Hincl; intros s; apply H.
Qed.

(** X1: the number of orders depends only on the set of order ids present:
    two tables with the same non-null order ids have the same count, so a
    further line of an order already present, or a line without an order id,
    changes nothing, wherever it stands; and a line with a new order id
    adds exactly one. *)
Theorem X1_total_order_distinct (main : list order_row) :
  (forall main',
      (forall s, In (Some s) (map order_id main)
                 <-> In (Some s) (map order_id main')) ->
      KPI.total_order main = KPI.total_order main')
  /\ (forall before after r,
         main = before ++ after ->
         order_id r = None \/ In (order_id r) (map order_id main) ->
         KPI.total_order (before ++ r :: after) = KPI.total_order main)
  /\ (forall before after r s,
         main = before ++ after ->
         order_id r = Some s -> ~ In (Some s) (map order_id main) ->
         KPI.total_order (before ++ r :: after)
         = S (KPI.total_order main)).
Proof.
  split; [| split].
  - intros main' H. apply nunique_same_values, H.
  - intros before after r -> Hr. unfold KPI.total_order.
    apply nunique_same_values. intros s.
    rewrite !map_app. cbn [map]. rewrite !in_app_iff. cbn [In].
    split; [| tauto].
    intros [H | [H | H]]; [tauto | | tauto].
    destruct Hr as [Hr | Hr]; [congruence |].
    rewrite H, map_app, in_app_iff in Hr. exact Hr.
  - intros before after r s -> Hid Hnew. unfold KPI.total_order.
    transitivity (nunique (map order_id (r :: before ++ after))).
    + apply nunique_same_values. intros s'.
      cbn [map]. rewrite !map_app. cbn [map In].
      rewrite !in_app_iff. cbn [In]. tauto.
    + unfold nunique. cbn [map]. rewrite Hid. cbn [dropna nodup].
      destruct (in_dec string_dec s (dropna (map order_id (before ++ after))))
        as [Hin | _]; [| reflexivity].
      exfalso. apply Hnew, In_dropna, Hin.
Qed.

Example total_order_of_toys :
  KPI.total_order toys_table = 4%nat
  /\ KPI.total_order (toys_table ++ toys_table) = 4%nat.
Proof. vm_compute. split; reflexivity. Qed.

(** *** The default date range *)

Lemma fold_min_le_init (xs : list Z) (x : Z) : fold_left Z.min xs x <= x.
Proof.
  revert x. induction xs as [| y xs IH]; intros x; cbn [fold_left].
  - lia.
  - specialize (IH (Z.min x y)). lia.
Qed.

Lemma fold_min_le (xs : list Z) (x t : Z) :
  In t (x :: xs) -> fold_left Z.min xs x <= t.
Proof.
  revert x. induction xs as [| y xs IH]; intros x Hin.
  - destruct Hin as [Heq | []]. cbn [fold_left]. lia.
  - cbn [fold_left]. pose proof (fold_min_le_init xs (Z.min x y)) as Hinit.
    destruct Hin as [Heq | [Heq | Hin]]; [lia | lia |].
    apply IH. right. exact Hin.
Qed.

Lemma fold_max_ge_init (xs : list Z) (x : Z) : x <= fold_left Z.max xs x.
Proof.
  revert x. induction xs as [| y xs IH]; intros x; cbn [fold_left].
  - lia.
  - specialize (IH (Z.max x y)). lia.
Qed.

Lemma fold_max_ge (xs : list Z) (x t : Z) :
  In t (x :: xs) -> t <= fold_left Z.max xs x.
Proof.
  revert x. induction xs as [| y xs IH]; intros x Hin.
  - destruct Hin as [Heq | []]. cbn [fold_left]. lia.
  - cbn [fold_left]. pose proof (fold_max_ge_init xs (Z.max x y)) as Hinit.
    destruct Hin as [Heq | [Heq | Hin]]; [lia | lia |].
    apply IH. right. exact Hin.
Qed.

Lemma dt_date_mono (t t' : timestamp) : t <= t' -> dt_date t <= dt_date t'.
Proof.
  intros H. unfold dt_date, ns_per_day. apply Z.div_le_mono; lia.
Qed.

Lemma min_date_le (all_df : list order_row) (lo : date) (r : order_row)
  (t : timestamp) :
  min_date all_df = Some lo -> In r all_df ->
  order_purchase_timestamp r = Some t -> lo <= dt_date t.
Proof.
  unfold min_date, min_skipna. intros Hlo Hin Ht.
  match type of Hlo with
  | context [@dropna ?A ?c] =>
      assert (Hd : In t (@dropna A c))
        by (apply In_dropna; rewrite <- Ht; exact (in_map _ _ _ Hin));
      revert Hlo; destruct (@dropna A c) as [| x xs]; [contradiction |];
      intros Hlo
  end.
  cbn [option_map] in Hlo. injection Hlo as <-.
  apply dt_date_mono, fold_min_le, Hd.
Qed.

Lemma max_date_ge (all_df : list order_row) (hi : date) (r : order_row)
  (t : timestamp) :
  max_date all_df = Some hi -> In r all_df ->
  order_purchase_timestamp r = Some t -> dt_date t <= hi.
Proof.
  unfold max_date, max_skipna. intros Hhi Hin Ht.
  match type of Hhi with
  | context [@dropna ?A ?c] =>
      assert (Hd : In t (@dropna A c))
        by (apply In_dropna; rewrite <- Ht; exact (in_map _ _ _ Hin));
      revert Hhi; destruct (@dropna A c) as [| x xs]; [contradiction |];
      intros Hhi
  end.
  cbn [option_map] in Hhi. injection Hhi as <-.
  apply dt_date_mono, fold_max_ge, Hd.
Qed.

Lemma filter_all {A : Type} (l : list A) : filter (fun _ => true) l = l.
Proof.
  induction l as [| a l IH]; cbn [filter]; [reflexivity |].
  rewrite IH. reflexivity.
Qed.

(** X2: with the default inputs of the two date widgets, the smallest and
    the largest purchase date of the table, the filter keeps every row that
    has a purchase timestamp, in order, and drops only the rows without one;
    the two defaults form a valid range. *)
Theorem X2_default_range_keeps_all (all_df : list order_row) (lo hi : date) :
  min_date all_df = Some lo ->
  max_date all_df = Some hi ->
  main_df all_df lo hi
  = filter (fun r => notnull (order_purchase_timestamp r)) all_df
  /\ lo <= hi
  /\ ((forall r, In r all_df -> order_purchase_timestamp r <> None) ->
      main_df all_df lo hi = all_df).
Proof.
  intros Hlo Hhi.
  assert (Hkeep : main_df all_df lo hi
                  = filter (fun r => notnull (order_purchase_timestamp r))
                      all_df).
  { unfold main_df. apply filter_ext_in. intros r Hin.
    unfold date_ge, date_le, notnull.
    destruct (order_purchase_timestamp r) as [t |] eqn:Ht; [| reflexivity].
    pose proof (min_date_le all_df lo r t Hlo Hin Ht).
    pose proof (max_date_ge all_df hi r t Hhi Hin Ht).
    apply andb_true_iff. split; apply Z.leb_le; assumption. }
  split; [exact Hkeep |]. split.
  - assert (Hsome : exists r x,
               In r all_df /\ order_purchase_timestamp r = Some x).
    { pose proof Hlo as Hlo'. unfold min_date, min_skipna in Hlo'.
      match type of Hlo' with
      | context [@dropna ?A ?c] =>
          destruct (@dropna A c) as [| x xs] eqn:E; [discriminate |];
          assert (Hx : In (Some x) c)
            by (apply In_dropna; rewrite E; left; reflexivity)
      end.
      apply in_map_iff in Hx. destruct Hx as [r [Ht Hin]].
      exists r, x. split; assumption. }
    destruct Hsome as [r [x [Hin Ht]]].
    pose proof (min_date_le all_df lo r x Hlo Hin Ht).
    pose proof (max_date_ge all_df hi r x Hhi Hin Ht). lia.
  - intros Hall. rewrite Hkeep.
    rewrite <- (filter_ext_in (fun _ => true)).
    + apply filter_all.
    + intros r Hin. specialize (Hall r Hin). unfold notnull.
      destruct (order_purchase_timestamp r); congruence.
Qed.

Lemma X2_default_range_keeps_all_witness :
  min_date toys_table = Some 0
  /\ max_date toys_table = Some 0
  /\ main_df toys_table 0 0 = toys_table.
Proof.
  assert (Hlo : min_date toys_table = Some 0) by reflexivity.
  assert (Hhi : max_date toys_table = Some 0) by reflexivity.
  split; [exact Hlo |]. split; [exact Hhi |].
  apply (X2_default_range_keeps_all toys_table 0 0 Hlo Hhi).
  intros r Hin. cbn in Hin.
  repeat (destruct Hin as [<- | Hin]; [discriminate |]). contradiction.
Defined.

(** *** Composing date ranges *)

Definition in_range (start_date end_date : date) (r : order_row) : bool :=
  date_ge start_date r && date_le end_date r.

Lemma filter_twice {A : Type} (f g : A -> bool) (l : list A) :
  filter g (filter f l) = filter (fun x => f x && g x) l.
Proof.
  induction l as [| a l IH]; cbn [filter]; [reflexivity |].
  destruct (f a); cbn [filter andb]; [| exact IH].
  destruct (g a); rewrite IH; reflexivity.
Qed.

Lemma in_range_both (s e s' e' : date) (r : order_row) :
  in_range s e r && in_range s' e' r
  = in_range (Z.max s s') (Z.min e e') r.
Proof.
  unfold in_range, date_ge, date_le.
  destruct (order_purchase_timestamp r) as [t |]; [| reflexivity].
  destruct (Z.leb_spec s (dt_date t)); destruct (Z.leb_spec (dt_date t) e);
    destruct (Z.leb_spec s' (dt_date t));
    destruct (Z.leb_spec (dt_date t) e');
    destruct (Z.leb_spec (Z.max s s') (dt_date t));
    destruct (Z.leb_spec (dt_date t) (Z.min e e'));
    cbn [andb]; try reflexivity; lia.
Qed.

(** X4: filtering a filtered table by a second range is filtering the base
    table by the intersection of the two ranges; so the filter is
    idempotent, a narrower range keeps a part of what a wider one keeps and
    never counts more orders, and a range whose start is after its end
    keeps no row. *)
Theorem X4_date_ranges_compose (all_df : list order_row) (s e : date) :
  (forall s' e',
      main_df (main_df all_df s e) s' e'
      = main_df all_df (Z.max s s') (Z.min e e'))
  /\ main_df (main_df all_df s e) s e = main_df all_df s e
  /\ (forall s' e',
         s' <= s -> e <= e' ->
         main_df (main_df all_df s' e') s e = main_df all_df s e
         /\ incl (main_df all_df s e) (main_df all_df s' e')
         /\ (KPI.total_order (main_df all_df s e)
             <= KPI.total_order (main_df all_df s' e'))%nat)
  /\ (e < s -> main_df all_df s e = []).
Proof.
  assert (Hcomp : forall s1 e1 s2 e2,
             main_df (main_df all_df s1 e1) s2 e2
             = main_df all_df (Z.max s1 s2) (Z.min e1 e2)).
  { intros s1 e1 s2 e2. unfold main_df. rewrite filter_twice.
    apply filter_ext. intros r. apply in_range_both. }
  split; [intros; apply Hcomp |].
  split.
  { rewrite Hcomp, Z.max_id, Z.min_id. reflexivity. }
  split.
  - intros s' e' Hs He.
    assert (Hnarrow : main_df (main_df all_df s' e') s e = main_df all_df s e).
    { rewrite Hcomp. f_equal; lia. }
    assert (Hincl : incl (main_df all_df s e) (main_df all_df s' e')).
    { rewrite <- Hnarrow. intros r Hr. unfold main_df at 1 in Hr.
      apply filter_In in Hr. tauto. }
    split; [exact Hnarrow |]. split; [exact Hincl |].
    unfold KPI.total_order. apply nunique_incl, Hincl.
  - intros Hbad. clear Hcomp. unfold main_df.
    induction all_df as [| r l IH]; cbn [filter]; [reflexivity |].
    rewrite IH. unfold date_ge, date_le.
    destruct (order_purchase_timestamp r) as [t |]; [| reflexivity].
    destruct (Z.leb_spec s (dt_date t)); destruct (Z.leb_spec (dt_date t) e);
      cbn [andb]; try reflexivity; lia.
Qed.

(** *** The two delivery buckets *)

Lemma status_of_delay_cases (x : option Z) :
  status_of_delay x = late_label \/ status_of_delay x = ontime_label.
Proof.
  unfold status_of_delay. destruct (gt0_cell x); [left | right]; reflexivity.
Qed.

Lemma q2_df_status (main : list order_row) (q : q2_row) :
  In q (q2_df main) ->
  delivery_status q = late_label \/ delivery_status q = ontime_label.
Proof.
  unfold q2_df. intros Hq. apply in_map_iff in Hq.
  destruct Hq as [r [<- _]]. apply status_of_delay_cases.
Qed.

Lemma two_buckets_length (q2 : list q2_row) :
  (forall q, In q q2 ->
             delivery_status q = late_label
             \/ delivery_status q = ontime_label) ->
  (length (bucket late_label q2) + length (bucket ontime_label q2))%nat
  = length q2.
Proof.
  unfold bucket. induction q2 as [| q q2 IH]; intros H; [reflexivity |].
  cbn [filter]. specialize (IH (fun q' Hq' => H q' (or_intror Hq'))).
  destruct (H q (or_introl eq_refl)) as [-> | ->]; cbn; lia.
Qed.

(** X5: every row of [q2_df] is labelled Late or On Time, so the two
    buckets split the table; [score_summary] has an entry for a label exactly
    when its bucket has a row, the entry being the mean score of the bucket,
    and it never has more than these two entries. *)
Theorem X5_two_buckets (main : list order_row) :
  let q2 := q2_df main in
  (forall q, In q q2 ->
             delivery_status q = late_label
             \/ delivery_status q = ontime_label)
  /\ (length (bucket late_label q2) + length (bucket ontime_label q2))%nat
     = length q2
  /\ (forall label v,
         In (label, v) (score_summary q2)
         <-> (label = late_label \/ label = ontime_label)
             /\ bucket label q2 <> []
             /\ v = mean_score (bucket label q2))
  /\ (length (score_summary q2) <= 2)%nat.
Proof.
  cbv zeta. split; [apply q2_df_status |].
  split; [apply two_buckets_length, q2_df_status |].
  assert (Hkey : forall label,
             In label (group_keys
                         (map (fun q => Some (delivery_status q))
                            (q2_df main)))
             <-> bucket label (q2_df main) <> []).
  { intros label. rewrite In_group_keys, in_map_iff. split.
    - intros [q [Hq Hin]] Hnil.
      assert (Hb : In q (bucket label (q2_df main))).
      { apply filter_In. split; [exact Hin |].
        apply String.eqb_eq. congruence. }
      rewrite Hnil in Hb. exact Hb.
    - intros Hne. destruct (bucket label (q2_df main)) as [| q g] eqn:E;
        [congruence |].
      assert (Hb : In q (bucket label (q2_df main)))
        by (rewrite E; left; reflexivity).
      apply filter_In in Hb. destruct Hb as [Hin Hq].
      apply String.eqb_eq in Hq. exists q. split; [congruence | exact Hin]. }
  assert (Hlabel : forall label,
             bucket label (q2_df main) <> [] ->
             label = late_label \/ label = ontime_label).
  { intros label Hne. destruct (bucket label (q2_df main)) as [| q g] eqn:E;
      [congruence |].
    assert (Hb : In q (bucket label (q2_df main)))
      by (rewrite E; left; reflexivity).
    apply filter_In in Hb. destruct Hb as [Hin Hq].
    apply String.eqb_eq in Hq. rewrite <- Hq.
    exact (q2_df_status main q Hin). }
  split.
  - intros label v. unfold score_summary, groupby_agg.
    rewrite in_map_iff. split.
    + intros [k [Hk Hin]]. injection Hk as <- <-.
      apply Hkey in Hin. split; [apply Hlabel, Hin |].
      split; [exact Hin | reflexivity].
    + intros [_ [Hne ->]]. exists label. split; [reflexivity |].
      apply Hkey, Hne.
  - unfold score_summary, groupby_agg. rewrite length_map.
    change 2%nat with (length [late_label; ontime_label]).
    apply NoDup_incl_length; [apply NoDup_group_keys |].
    intros label Hin. apply Hkey, Hlabel in Hin.
    destruct Hin as [-> | ->]; cbn [In]; tauto.
Qed.

(** *** The ten largest revenues *)

Lemma sorted_app_le {A : Type} (R : A -> A -> Prop) (l1 l2 : list A) :
  StronglySorted R (l1 ++ l2) ->
  forall x y, In x l1 -> In y l2 -> R x y.
Proof.
  induction l1 as [| a l1 IH]; intros Hs x y Hx Hy; [contradiction |].
  cbn [app] in Hs. apply StronglySorted_inv in Hs. destruct Hs as [Hs Hall].
  destruct Hx as [<- | Hx].
  - rewrite Forall_forall in Hall. apply Hall, in_or_app. right. exact Hy.
  - exact (IH Hs x y Hx Hy).
Qed.

(** X6: no category left out of [top_10_df] has a larger revenue than one
    that is in it. *)
Theorem X6_top_10_dominates (main : list order_row) (x y : q1_row) :
  In x (top_10_df main) ->
  In y (q1_df main) ->
  ~ In y (top_10_df main) ->
  (total_revenue y <= total_revenue x)%Q.
Proof.
  unfold top_10_df, head. intros Hx Hy Hout.
  set (l := sort revenue_geb (q1_df main)) in *.
  assert (Hsorted : revenue_descending (firstn 10 l ++ skipn 10 l)).
  { rewrite firstn_skipn. apply sort_values_descending. }
  assert (Hy' : In y (skipn 10 l)).
  { apply (sort_In revenue_geb) in Hy. fold l in Hy.
    rewrite <- (firstn_skipn 10 l) in Hy. apply in_app_or in Hy.
    destruct Hy as [Hy | Hy]; [contradiction | exact Hy]. }
  exact (sorted_app_le _ _ _ Hsorted x y Hx Hy').
Qed.

Lemma X6_top_10_dominates_witness :
  In (q1_for twelve_categories "c") (top_10_df twelve_categories)
  /\ In (q1_for twelve_categories "d") (q1_df twelve_categories)
  /\ (total_revenue (q1_for twelve_categories "d")
      <= total_revenue (q1_for twelve_categories "c"))%Q.
Proof.
  assert (Hx : In (q1_for twelve_categories "c")
                 (top_10_df twelve_categories))
    by (vm_compute; do 9 right; left; reflexivity).
  assert (Hy : In (q1_for twelve_categories "d") (q1_df twelve_categories))
    by (vm_compute; do 3 right; left; reflexivity).
  split; [exact Hx |]. split; [exact Hy |].
  apply (X6_top_10_dominates twelve_categories _ _ Hx Hy).
  vm_compute. intros H.
  repeat (destruct H as [H | H]; [discriminate H |]). exact H.
Defined.

(** *** Late means a full day late *)

Lemma q2_df_delay (main : list order_row) (q : q2_row) :
  In q (q2_df main) ->
  exists a e d,
    order_delivered_customer_date (order q) = Some a
    /\ order_estimated_delivery_date (order q) = Some e
    /\ delay_days q = Some d
    /\ d = (a - e) / ns_per_day
    /\ ns_per_day * d <= a - e < ns_per_day * (d + 1).
Proof.
  intros Hq. unfold q2_df in Hq. apply in_map_iff in Hq.
  destruct Hq as [r [<- Hr]]. apply filter_In in Hr. destruct Hr as [_ Hm].
  unfold q2_mask, notnull in Hm. rewrite !andb_true_iff in Hm.
  destruct Hm as [[_ Ha] He]. cbn [order q2_of delay_days].
  destruct (order_delivered_customer_date r) as [a |]; [| discriminate].
  destruct (order_estimated_delivery_date r) as [e |]; [| discriminate].
  exists a, e, ((a - e) / ns_per_day). cbn [td_days].
  repeat split; apply td_days_bounds; reflexivity.
Qed.

Lemma status_late_iff (d : Z) :
  status_of_delay (Some d) = late_label <-> 0 < d.
Proof.
  unfold status_of_delay, gt0_cell. destruct (Z.ltb_spec 0 d).
  - tauto.
  - split; [intros H'; discriminate H' | lia].
Qed.

(** X8: a delivered order is labelled Late exactly when it reached the
    customer at least 24 hours after the estimate; a delay of less than a
    day is On Time.  When the estimate is at midnight this is: delivered on
    a calendar day after the estimated day. *)
Theorem X8_late_is_a_full_day (main : list order_row) (q : q2_row) :
  In q (q2_df main) ->
  exists a e,
    order_delivered_customer_date (order q) = Some a
    /\ order_estimated_delivery_date (order q) = Some e
    /\ (delivery_status q = late_label <-> ns_per_day <= a - e)
    /\ (delivery_status q = ontime_label <-> a - e < ns_per_day)
    /\ (forall day, e = day * ns_per_day ->
                    (delivery_status q = late_label <-> day < dt_date a)).
Proof.
  intros Hq.
  destruct (q2_df_delay main q Hq)
    as [a [e [d [Ha [He [Hd [Hdef Hbounds]]]]]]].
  exists a, e. split; [exact Ha |]. split; [exact He |].
  assert (Hst : delivery_status q = status_of_delay (Some d)).
  { unfold q2_df in Hq. apply in_map_iff in Hq. destruct Hq as [r [<- _]].
    cbn [delivery_status q2_of delay_days] in *. rewrite Hd. reflexivity. }
  assert (Hlate : delivery_status q = late_label <-> ns_per_day <= a - e).
  { rewrite Hst, status_late_iff. unfold ns_per_day in *. nia. }
  split; [exact Hlate |]. split.
  - destruct (status_of_delay_cases (Some d)) as [H | H]; rewrite Hst, H.
    + rewrite Hst, H in Hlate. split; [intros H'; discriminate H' |].
      intros Hlt. assert (ns_per_day <= a - e) by (apply Hlate; reflexivity).
      lia.
    + rewrite Hst, H in Hlate. split; [| reflexivity].
      intros _. destruct (Z.lt_ge_cases (a - e) ns_per_day) as [Hlt | Hge];
        [exact Hlt |].
      apply Hlate in Hge. discriminate Hge.
  - intros day ->. rewrite Hst, status_late_iff.
    pose proof (td_days_midnight_estimate a day) as Hmid.
    cbn [td_days] in Hmid. injection Hmid as Hmid.
    rewrite Hdef, Hmid. lia.
Qed.

(** An order that arrives 23 hours after a midnight estimate. *)
Definition arrives_23h_after : order_row :=
  mk_row (Some "o"%string) (Some "delivered"%string) (Some 1%Q) None None
    (Some 0) (Some (19002 * ns_per_day + 82800000000000))
    (Some (19002 * ns_per_day)).

Lemma X8_late_is_a_full_day_witness :
  In (q2_of arrives_23h_after) (q2_df [arrives_23h_after])
  /\ delivery_status (q2_of arrives_23h_after) = ontime_label
  /\ exists a e,
      order_delivered_customer_date arrives_23h_after = Some a
      /\ order_estimated_delivery_date arrives_23h_after = Some e
      /\ (delivery_status (q2_of arrives_23h_after) = late_label
          <-> ns_per_day <= a - e)
      /\ (delivery_status (q2_of arrives_23h_after) = ontime_label
          <-> a - e < ns_per_day)
      /\ (forall day, e = day * ns_per_day ->
                      (delivery_status (q2_of arrives_23h_after) = late_label
                       <-> day < dt_date a)).
Proof.
  assert (Hin : In (q2_of arrives_23h_after) (q2_df [arrives_23h_after]))
    by (left; reflexivity).
  split; [exact Hin |]. split; [reflexivity |].
  exact (X8_late_is_a_full_day [arrives_23h_after] _ Hin).
Defined.

(** *** The rates and the limit of the rate axis *)

Definition finite (a : fl) : Prop := exists q, a = Fin q.

Lemma Qle_bool_total (x y : Q) : Qle_bool x y = false -> Qle_bool y x = true.
Proof.
  intros H. apply Qle_bool_iff. apply Qlt_le_weak, Qnot_le_lt.
  intros Hle. apply Qle_bool_iff in Hle. congruence.
Qed.

Lemma fl_max_finite (a b : fl) :
  finite a -> finite b ->
  finite (fl_max a b)
  /\ fl_leb a (fl_max a b) = true
  /\ fl_leb b (fl_max a b) = true
  /\ (fl_max a b = a \/ fl_max a b = b).
Proof.
  intros [x ->] [y ->]. unfold fl_max. cbn [fl_leb].
  destruct (Qle_bool x y) eqn:E; cbn [fl_leb].
  - repeat split; try (exists y; reflexivity); try exact E.
    + apply Qle_bool_iff, Qle_refl.
    + right. reflexivity.
  - repeat split; try (exists x; reflexivity).
    + apply Qle_bool_iff, Qle_refl.
    + apply Qle_bool_total, E.
    + left. reflexivity.
Qed.

Lemma fl_leb_trans_finite (a b c : fl) :
  finite a -> finite b -> finite c ->
  fl_leb a b = true -> fl_leb b c = true -> fl_leb a c = true.
Proof.
  intros [x ->] [y ->] [z ->]. cbn [fl_leb]. rewrite !Qle_bool_iff.
  apply Qle_trans.
Qed.

Lemma fold_fl_max_spec (xs : list fl) (x : fl) :
  finite x -> Forall finite xs ->
  finite (fold_left fl_max xs x)
  /\ In (fold_left fl_max xs x) (x :: xs)
  /\ forall a, In a (x :: xs) -> fl_leb a (fold_left fl_max xs x) = true.
Proof.
  revert x. induction xs as [| y xs IH]; intros x Hx Hxs; cbn [fold_left].
  - split; [exact Hx |]. split; [left; reflexivity |].
    intros a [<- | []]. destruct Hx as [q ->]. cbn [fl_leb].
    apply Qle_bool_iff, Qle_refl.
  - apply Forall_cons_iff in Hxs. destruct Hxs as [Hy Hxs].
    destruct (fl_max_finite x y Hx Hy) as [Hm [Hxm [Hym Hcase]]].
    destruct (IH (fl_max x y) Hm Hxs) as [Hf [Hin Hge]].
    split; [exact Hf |]. split.
    + destruct Hin as [Hin | Hin].
      * rewrite <- Hin. destruct Hcase as [-> | ->];
          [left; reflexivity | right; left; reflexivity].
      * right. right. exact Hin.
    + assert (Hmf : fl_leb (fl_max x y) (fold_left fl_max xs (fl_max x y))
                    = true) by (apply Hge; left; reflexivity).
      intros a [<- | [<- | Ha]].
      * exact (fl_leb_trans_finite _ _ _ Hx Hm Hf Hxm Hmf).
      * exact (fl_leb_trans_finite _ _ _ Hy Hm Hf Hym Hmf).
      * apply Hge. right. exact Ha.
Qed.

(** [Series.max()] of a column of numbers and NaN: NaN when there is no
    number, else the largest number of the column. *)
Lemma series_max_spec (col : list fl) :
  (forall a, In a col -> a = NaN \/ finite a) ->
  (series_max col = NaN /\ forall a, In a col -> a = NaN)
  \/ exists m, series_max col = Fin m /\ In (Fin m) col
               /\ forall q, In (Fin q) col -> (q <= m)%Q.
Proof.
  intros H. unfold series_max.
  assert (Hfin : Forall finite (filter (fun a => negb (is_nan a)) col)).
  { apply Forall_forall. intros a Ha. apply filter_In in Ha.
    destruct Ha as [Hin Hnn]. destruct (H a Hin) as [-> | Hf];
      [discriminate Hnn | exact Hf]. }
  destruct (filter (fun a => negb (is_nan a)) col) as [| x xs] eqn:E.
  - left. split; [reflexivity |]. intros a Hin.
    destruct (H a Hin) as [Hn | [q ->]]; [exact Hn |].
    assert (Hf : In (Fin q) (filter (fun a => negb (is_nan a)) col))
      by (apply filter_In; split; [exact Hin | reflexivity]).
    rewrite E in Hf. contradiction.
  - right. apply Forall_cons_iff in Hfin. destruct Hfin as [Hx Hxs].
    destruct (fold_fl_max_spec xs x Hx Hxs) as [[m Hm] [Hin Hge]].
    exists m. split; [exact Hm |]. split.
    + rewrite Hm, <- E in Hin. apply filter_In in Hin. tauto.
    + intros q Hq.
      assert (Hf : In (Fin q) (x :: xs)).
      { rewrite <- E. apply filter_In. split; [exact Hq | reflexivity]. }
      apply Hge in Hf. rewrite Hm in Hf. cbn [fl_leb] in Hf.
      apply Qle_bool_iff, Hf.
Qed.

Lemma rate_nan_or_percent (main : list order_row) (x : q1_row) :
  In x (q1_df main) ->
  cancellation_rate x = NaN
  \/ exists q, cancellation_rate x = Fin q /\ (0 <= q /\ q <= 100)%Q.
Proof.
  intros Hx.
  destruct (joined_counts main x Hx) as [c [t [_ [_ [Hle [Hrate _]]]]]].
  rewrite Hrate. destruct t as [| t].
  - assert (c = 0%nat) by lia. subst c. left. reflexivity.
  - right. exists (percent c (S t)).
    split; [apply fl_percent_pos; lia | apply percent_range; lia].
Qed.

(** X9: a cancellation rate is never infinite: it is NaN or a number from 0
    to 100.  The upper limit the script computes for the rate axis of the
    first figure, 1.5 times the largest rate of the top-10 table, is what
    [set_ylim] is called with; it is NaN when that table is empty or has NaN
    rates only, and exactly then the section ends with the exception of
    [set_ylim]; otherwise it is a number from 0 to 150, not below any rate
    shown. *)
Theorem X9_rate_axis_limit (main : list order_row) :
  let top := top_10_df main in
  let limit :=
    fl_mul (series_max (map cancellation_rate top)) (Fin (15 # 10)) in
  (forall x, In x (q1_df main) ->
             cancellation_rate x = NaN
             \/ exists q, cancellation_rate x = Fin q
                          /\ (0 <= q /\ q <= 100)%Q)
  /\ In (ax2_set_ylim (Fin 0) limit) (fst (category_section main))
  /\ (snd (category_section main) = Uncaught <-> limit = NaN)
  /\ ((forall x, In x top -> cancellation_rate x = NaN) -> limit = NaN)
  /\ (forall x q,
         In x top -> cancellation_rate x = Fin q ->
         exists m, limit = Fin m /\ (q <= m /\ 0 <= m /\ m <= 150)%Q).
Proof.
  cbv zeta.
  assert (Htop : forall x, In x (top_10_df main) -> In x (q1_df main)).
  { intros x Hx. unfold top_10_df, head in Hx. apply In_firstn in Hx.
    apply sort_In in Hx. exact Hx. }
  assert (Hcol : forall a,
             In a (map cancellation_rate (top_10_df main)) ->
             a = NaN \/ exists q, a = Fin q /\ (0 <= q /\ q <= 100)%Q).
  { intros a Ha. apply in_map_iff in Ha. destruct Ha as [x [<- Hx]].
    apply (rate_nan_or_percent main), Htop, Hx. }
  split; [apply rate_nan_or_percent |].
  split.
  { fold (rate_axis_limit main).
    destruct (is_finite (rate_axis_limit main)) eqn:Hf.
    - rewrite (category_section_finite main Hf). cbn [fst In app].
      unfold category_head. cbn [In app]. tauto.
    - rewrite (category_section_raises main Hf). cbn [fst].
      unfold category_head. cbn [In]. tauto. }
  destruct (series_max_spec (map cancellation_rate (top_10_df main)))
    as [[Hnan Hall] | [m [Hm [Hin Hge]]]].
  { intros a Ha. destruct (Hcol a Ha) as [H | [q [H _]]];
      [left; exact H | right; exists q; exact H]. }
  - split.
    { assert (Hf : is_finite (rate_axis_limit main) = false)
        by (unfold rate_axis_limit; rewrite Hnan; reflexivity).
      rewrite (category_section_raises main Hf), Hnan.
      split; reflexivity. }
    split; [intros _; rewrite Hnan; reflexivity |].
    intros x q Hx Hq. exfalso.
    assert (Ha : In (cancellation_rate x)
                   (map cancellation_rate (top_10_df main)))
      by (apply in_map, Hx).
    apply Hall in Ha. congruence.
  - split.
    { assert (Hf : is_finite (rate_axis_limit main) = true)
        by (unfold rate_axis_limit; rewrite Hm; reflexivity).
      rewrite (category_section_finite main Hf), Hm.
      split; intros H; discriminate H. }
    split.
    + intros Hall. exfalso. apply in_map_iff in Hin.
      destruct Hin as [x [Hx Hin]]. rewrite (Hall x Hin) in Hx.
      discriminate Hx.
    + intros x q Hx Hq. rewrite Hm. cbn [fl_mul].
      exists (m * (15 # 10))%Q. split; [reflexivity |].
      assert (Hqm : (q <= m)%Q).
      { apply Hge. rewrite <- Hq. apply in_map, Hx. }
      destruct (Hcol (Fin m) Hin) as [Hbad | [m' [Hm' [Hm0 Hm100]]]];
        [discriminate Hbad |].
      injection Hm' as <-.
      assert (Hgrow : (m <= m * (15 # 10))%Q).
      { apply Qle_minus_iff.
        setoid_replace (m * (15 # 10) + - m)%Q with (m * (5 # 10))%Q by ring.
        apply Qmult_le_0_compat; [exact Hm0 | discriminate]. }
      split; [eapply Qle_trans; eassumption |].
      split; [eapply Qle_trans; eassumption |].
      setoid_replace 150%Q with (100 * (15 # 10))%Q by reflexivity.
      apply Qmult_le_compat_r; [exact Hm100 | discriminate].
Qed.

Example rate_axis_limits :
  fl_mul (series_max (map cancellation_rate (top_10_df toys_table)))
    (Fin (15 # 10))
  = Fin (1500 # 40)
  /\ fl_mul (series_max (map cancellation_rate (top_10_df [])))
       (Fin (15 # 10))
     = NaN.
Proof. vm_compute. split; reflexivity. Qed.

(** *** Thousands separators *)

Definition not_comma (c : ascii) : bool := negb (Ascii.eqb c ","%char).

Definition without_commas (s : string) : list ascii :=
  filter not_comma (list_ascii_of_string s).

Lemma commas_rev_without (l : list ascii) (k : nat) :
  filter not_comma (commas_rev l k) = filter not_comma l.
Proof.
  revert k. induction l as [| c l IH]; intros k; [reflexivity |].
  destruct k as [| k]; cbn [commas_rev filter].
  - change (not_comma ","%char) with false. cbn iota.
    rewrite IH. reflexivity.
  - rewrite IH. reflexivity.
Qed.

Lemma filter_rev_comm {A : Type} (f : A -> bool) (l : list A) :
  filter f (rev l) = rev (filter f l).
Proof.
  induction l as [| a l IH]; [reflexivity |].
  cbn [rev filter]. rewrite filter_app, IH. cbn [filter].
  destruct (f a); [reflexivity | rewrite app_nil_r; reflexivity].
Qed.

Lemma with_commas_without (s : string) :
  without_commas (with_commas s) = without_commas s.
Proof.
  unfold without_commas, with_commas.
  rewrite list_ascii_of_string_of_list_ascii.
  rewrite filter_rev_comm, commas_rev_without, <- filter_rev_comm.
  rewrite rev_involutive. reflexivity.
Qed.

Lemma digits_without_commas (d : Decimal.uint) :
  without_commas (NilEmpty.string_of_uint d)
  = list_ascii_of_string (NilEmpty.string_of_uint d).
Proof.
  unfold without_commas.
  induction d as [| d IH | d IH | d IH | d IH | d IH | d IH | d IH | d IH
                 | d IH | d IH];
    cbn [NilEmpty.string_of_uint list_ascii_of_string filter];
    [reflexivity | ..];
    match goal with
    | |- context [not_comma ?c] => change (not_comma c) with true
    end; cbn iota; rewrite IH; reflexivity.
Qed.

Lemma nilzero_without_commas (d : Decimal.uint) :
  without_commas (NilZero.string_of_uint d)
  = list_ascii_of_string (NilZero.string_of_uint d).
Proof.
  destruct d; [reflexivity | exact (digits_without_commas _) ..].
Qed.

(** X11: the thousands separators of the order count only insert commas:
    with the commas deleted, the text of the count is the plain decimal
    numeral of the number. *)
Theorem X11_format_count_digits (n : nat) :
  without_commas (format_count n)
  = list_ascii_of_string (digits_of (Z.of_nat n))
  /\ (length (list_ascii_of_string (digits_of (Z.of_nat n)))
      <= length (list_ascii_of_string (format_count n)))%nat.
Proof.
  assert (Hdigits : without_commas (digits_of (Z.of_nat n))
                    = list_ascii_of_string (digits_of (Z.of_nat n))).
  { unfold digits_of. apply nilzero_without_commas. }
  assert (H : without_commas (format_count n)
              = list_ascii_of_string (digits_of (Z.of_nat n))).
  { unfold format_count. rewrite with_commas_without. exact Hdigits. }
  split; [exact H |].
  rewrite <- H. unfold without_commas. apply filter_length_le.
Qed.

Example format_count_examples :
  format_count 4321 = "4,321"%string
  /\ format_count 100 = "100"%string
  /\ format_count 1000 = "1,000"%string.
Proof. vm_compute. repeat split. Qed.

End DashboardExtras.
